(** * Flower coordination plane: the authenticating RPC gate and the node
      reconciliation loop

    A shallow embedding of

    - [src/py/flwr/server/server_interceptor.py]
      ([AuthenticateServerInterceptor], module [Interceptor] below), and
    - [src/py/flwr/driver/app.py]
      (the module body, [start_driver] and the loop body of
      [update_client_manager], module [DriverApp] below),

    together with the properties the specification states about them. *)

From Stdlib Require Import ZArith String Floats.PrimFloat.
From stdpp Require Import base option list gmap sets strings countable pretty.
#[local] Set Warnings "-clear-no-such-hyp".
Local Open Scope string_scope.
Local Open Scope Z_scope.
Local Open Scope list_scope.

(** ** Byte strings

    Python [bytes] are lists of [Byte.byte]; they are keys of the trusted
    set and of the key-to-node map, so they need decidable equality and a
    counting. *)

Definition bytes : Type := list Byte.byte.

#[global] Instance byte_eq_dec : EqDecision Byte.byte.
Proof.
  intros x y. destruct (Byte.eqb x y) eqn:E.
  - left. apply Byte.byte_dec_bl. exact E.
  - right. intros ->. rewrite (Byte.byte_dec_lb eq_refl) in E. discriminate.
Defined.

#[global] Program Instance byte_countable : Countable Byte.byte :=
  inj_countable Byte.to_N Byte.of_N _.
Next Obligation. intros x. apply Byte.of_to_N. Qed.

(** [str.encode()]: gRPC text metadata is ASCII, a Rocq [string] is its
    sequence of code units. *)
Definition encode (s : string) : bytes := list_byte_of_string s.

(** [flwr.proto.node_pb2.Node]. *)
Record Node := { node_id : Z; anonymous : bool }.

(* ===================================================================== *)
(** * server_interceptor.py *)
(* ===================================================================== *)

Module Interceptor.

(** ** Protocol messages (the fields the gate inspects) *)

Record Task := { producer : Node; consumer : Node }.

Record TaskRes := { task_id : string; task : Task }.

(** [Request] is the union of the four protected calls; [OtherRequest]
    stands for any object that is an instance of none of them (the final
    [else] of the handler). *)
Inductive Request :=
| CreateNodeRequest (ping_interval : float)
| DeleteNodeRequest (node : Node)
| PullTaskInsRequest (node : Node) (task_ids : list string)
| PushTaskResRequest (task_res_list : list TaskRes)
| OtherRequest (type_name : string).

Inductive Response :=
| CreateNodeResponse (node : Node)
| DeleteNodeResponse
| PullTaskInsResponse (task_ins_list : list Task)
| PushTaskResResponse (results : list (string * Z)).

(** [grpc.StatusCode]. *)
Inductive StatusCode :=
| OK | CANCELLED | UNKNOWN | INVALID_ARGUMENT | DEADLINE_EXCEEDED
| NOT_FOUND | ALREADY_EXISTS | PERMISSION_DENIED | RESOURCE_EXHAUSTED
| FAILED_PRECONDITION | ABORTED | OUT_OF_RANGE | UNIMPLEMENTED | INTERNAL
| UNAVAILABLE | DATA_LOSS | UNAUTHENTICATED.

(** Call metadata: a sequence of [(key, value)] with [value : str | bytes]. *)
Inductive MetaValue := MStr (s : string) | MBytes (b : bytes).

Definition Metadata : Type := list (string * MetaValue).

Definition _PUBLIC_KEY_HEADER : string := "public-key".
Definition _AUTH_TOKEN_HEADER : string := "auth-token".

(** [next((value for key, value in tuples if key == key_string), "")],
    encoded when it is a [str]. *)
Definition _get_value_from_tuples (key_string : string) (tuples : Metadata) : bytes :=
  let value :=
    match find (fun kv => bool_decide (kv.1 = key_string)) tuples with
    | Some kv => kv.2
    | None => MStr ""
    end in
  match value with
  | MStr s => encode s
  | MBytes b => b
  end.

(** No tuple of the metadata carries the header. *)
Definition header_absent (key_string : string) (tuples : Metadata) : Prop :=
  Forall (fun kv => kv.1 ≠ key_string) tuples.

(** ** Collaborators the gate calls *)

(** [base64] and protobuf serialisation. [urlsafe_b64decode] raises
    [binascii.Error] on malformed input: [None]. *)
Class Encoding := {
  urlsafe_b64decode : bytes → option bytes;
  urlsafe_b64encode : bytes → bytes;
  SerializeToString : Request → bytes;
}.

(** [flwr.common.secure_aggregation.crypto.symmetric_encryption]: key
    (de)serialisation, key agreement and HMAC verification. Parsing a key
    and deriving the shared key raise on bad input: [None]. *)
Class Crypto := {
  PublicKey : Type;
  PrivateKey : Type;
  public_key_to_bytes : PublicKey → bytes;
  bytes_to_public_key : bytes → option PublicKey;
  generate_shared_key : PrivateKey → PublicKey → option bytes;
  verify_hmac : bytes → bytes → bytes → bool;
}.

(** The [State] interface of [flwr.server.superlink.state], as the gate
    uses it. [get_node_id] raises [KeyError] when the key has no binding:
    [None]. *)
Class State (S : Type) := {
  store_client_public_keys : gset bytes → S → S;
  get_client_public_keys : S → gset bytes;
  get_node_id : bytes → S → option Z;
  store_node_id_client_public_key_pair : bytes → Z → S → S;
  restore_node : Z → float → S → S;
}.

(** What [message_handler.unary_unary(request, context)] does: it may
    change the store, and it returns a response or raises. *)
Inductive HandlerResult :=
| HandlerReturned (response : Response)
| HandlerRaised (what : string).

(** ** Effects of one intercepted call

    The body of [_generic_method_handler] runs under [self._lock]: one call
    is one transition of the [World], the store together with the calls
    made so far. [context.abort] raises inside gRPC and so ends the call,
    as does a Python exception. *)

Inductive Exn :=
| BinasciiError
| ValueError
| IndexError
| AttributeError
| HandlerException (what : string).

(** How a call ends: a value, [context.abort(code, details)], or a Python
    exception. *)
Inductive Outcome (A : Type) :=
| Returned (a : A)
| Aborted (code : StatusCode) (details : string)
| Raised (e : Exn).
Arguments Returned {A} a.
Arguments Aborted {A} code details.
Arguments Raised {A} e.

(** The calls the gate makes on its collaborators, in order. *)
Inductive Event :=
| CallGetClientPublicKeys
| CallGetNodeId (public_key : bytes)
| CallRestoreNode (node_id : Z) (ping_interval : float)
| CallStoreNodeIdClientPublicKeyPair (public_key : bytes) (node_id : Z)
| SendInitialMetadata (metadata : Metadata)
| CallUnaryUnary (request : Request)
| Abort (code : StatusCode) (details : string).

Record World (S : Type) := mkWorld { store : S; trace : list Event }.
Arguments mkWorld {S} store trace.
Arguments store {S} w.
Arguments trace {S} w.

Definition Gate (S A : Type) : Type := World S → Outcome A * World S.

Definition ret {S A} (a : A) : Gate S A := fun w => (Returned a, w).

Definition bind {S A B} (m : Gate S A) (k : A → Gate S B) : Gate S B :=
  fun w =>
    match m w with
    | (Returned a, w') => k a w'
    | (Aborted c d, w') => (Aborted c d, w')
    | (Raised e, w') => (Raised e, w')
    end.

Declare Scope gate_scope.
Delimit Scope gate_scope with gate.
Notation "x <- m ;; k" := (bind m (fun x => k))
  (at level 100, m at next level, right associativity) : gate_scope.
Notation "m ;; k" := (bind m (fun _ => k))
  (at level 100, right associativity) : gate_scope.

Definition emit {S} (e : Event) (w : World S) : World S :=
  mkWorld (store w) (trace w ++ [e]).

Definition raise {S A} (e : Exn) : Gate S A := fun w => (Raised e, w).

Definition or_raise {S A} (o : option A) (e : Exn) : Gate S A :=
  match o with
  | Some a => ret a
  | None => raise e
  end.

Definition lift {S A} (r : Exn + A) : Gate S A :=
  match r with
  | inl e => raise e
  | inr a => ret a
  end.

Definition when {S} (b : bool) (m : Gate S unit) : Gate S unit :=
  if b then m else ret tt.

Section Handler.
Context {S : Type} `{!State S} `{!Encoding} `{!Crypto}.

(** The interceptor object: its two keys ([self.state] is the store of
    the [World]). *)
Variable server_private_key : PrivateKey.
Variable server_public_key : PublicKey.

(** The handler the gate wraps. *)
Variable unary_unary : Request → S → HandlerResult * S.

Definition context_abort {A} (code : StatusCode) (details : string) : Gate S A :=
  fun w => (Aborted code details, emit (Abort code details) w).

Definition context_send_initial_metadata (md : Metadata) : Gate S unit :=
  fun w => (Returned tt, emit (SendInitialMetadata md) w).

Definition state_get_client_public_keys : Gate S (gset bytes) :=
  fun w => (Returned (get_client_public_keys (store w)),
            emit CallGetClientPublicKeys w).

(** [try: ... get_node_id(key) except KeyError: None]. *)
Definition state_get_node_id (key : bytes) : Gate S (option Z) :=
  fun w => (Returned (get_node_id key (store w)), emit (CallGetNodeId key) w).

Definition state_restore_node (n : Z) (ping : float) : Gate S unit :=
  fun w => (Returned tt,
            mkWorld (restore_node n ping (store w))
                    (trace w ++ [CallRestoreNode n ping])).

Definition state_store_node_id_client_public_key_pair
    (key : bytes) (n : Z) : Gate S unit :=
  fun w => (Returned tt,
            mkWorld (store_node_id_client_public_key_pair key n (store w))
                    (trace w ++ [CallStoreNodeIdClientPublicKeyPair key n])).

Definition message_handler_unary_unary (request : Request) : Gate S Response :=
  fun w =>
    let '(r, s') := unary_unary request (store w) in
    let w' := mkWorld s' (trace w ++ [CallUnaryUnary request]) in
    match r with
    | HandlerReturned response => (Returned response, w')
    | HandlerRaised what => (Raised (HandlerException what), w')
    end.

(** [response.node.node_id]: only a [CreateNodeResponse] has a [node]. *)
Definition response_node (response : Response) : option Node :=
  match response with
  | CreateNodeResponse n => Some n
  | _ => None
  end.

(** Lines 167-179: the token, the shared secret and the HMAC check. Each of
    the first three calls can raise. *)
Definition session_verify (request : Request) (metadata : Metadata)
    (client_public_key_bytes : bytes) : Exn + bool :=
  match urlsafe_b64decode (_get_value_from_tuples _AUTH_TOKEN_HEADER metadata) with
  | None => inl BinasciiError
  | Some hmac_value =>
      match bytes_to_public_key client_public_key_bytes with
      | None => inl ValueError
      | Some client_public_key =>
          match generate_shared_key server_private_key client_public_key with
          | None => inl ValueError
          | Some shared_secret =>
              inr (verify_hmac shared_secret (SerializeToString request) hmac_value)
          end
      end
  end.

(** Lines 188-191: the node id the request speaks for;
    [request.task_res_list[0]] raises [IndexError] on an empty list. *)
Definition request_node_id (request : Request) : Exn + Z :=
  match request with
  | PushTaskResRequest task_res_list =>
      match task_res_list with
      | [] => inl IndexError
      | task_res :: _ => inr (node_id (consumer (task task_res)))
      end
  | DeleteNodeRequest node => inr (node_id node)
  | PullTaskInsRequest node _ => inr (node_id node)
  | CreateNodeRequest _ | OtherRequest _ => inl AttributeError
  end.

(** [node_id_from_client_public_key == request_node_id]. *)
Definition node_id_eq (bound : option Z) (n : Z) : bool :=
  match bound with
  | Some m => bool_decide (m = n)
  | None => false
  end.

Definition _generic_method_handler (request : Request) (metadata : Metadata)
    : Gate S Response :=
  (client_public_key_bytes <-
     or_raise (urlsafe_b64decode
                 (_get_value_from_tuples _PUBLIC_KEY_HEADER metadata))
              BinasciiError ;;
   keys <- state_get_client_public_keys ;;
   let is_public_key_known := bool_decide (client_public_key_bytes ∈ keys) in
   when (negb is_public_key_known)
        (context_abort UNAUTHENTICATED "Access denied!") ;;
   match request with
   | CreateNodeRequest ping_interval =>
       context_send_initial_metadata
         [(_PUBLIC_KEY_HEADER,
           MBytes (urlsafe_b64encode (public_key_to_bytes server_public_key)))] ;;
       node_id_from_client_public_key <-
         state_get_node_id client_public_key_bytes ;;
       match node_id_from_client_public_key with
       | Some n =>
           state_restore_node n ping_interval ;;
           state_store_node_id_client_public_key_pair client_public_key_bytes n ;;
           ret (CreateNodeResponse {| node_id := n; anonymous := false |})
       | None =>
           response <- message_handler_unary_unary request ;;
           node <- or_raise (response_node response) AttributeError ;;
           state_store_node_id_client_public_key_pair
             client_public_key_bytes (node_id node) ;;
           ret response
       end
   | DeleteNodeRequest _ | PullTaskInsRequest _ _ | PushTaskResRequest _ =>
       verify <- lift (session_verify request metadata client_public_key_bytes) ;;
       node_id_from_client_public_key <-
         state_get_node_id client_public_key_bytes ;;
       request_node_id <- lift (request_node_id request) ;;
       when (negb verify
             && negb (node_id_eq node_id_from_client_public_key request_node_id))
            (context_abort UNAUTHENTICATED "Access denied!") ;;
       message_handler_unary_unary request
   | OtherRequest _ =>
       context_abort (A := unit) UNAUTHENTICATED "Access denied!" ;;
       message_handler_unary_unary request
   end)%gate.

End Handler.

(** What a call surfaces to its caller: how it ended, and the initial
    metadata sent to it meanwhile. *)
Definition sent_metadata (events : list Event) : list Metadata :=
  omap (fun e => match e with
                 | SendInitialMetadata md => Some md
                 | _ => None
                 end) events.

Definition caller_view {S} (before : World S)
    (result : Outcome Response * World S) : Outcome Response * list Metadata :=
  (result.1, sent_metadata (drop (length (trace before)) (trace result.2))).

(** The constructor: [self.state.store_client_public_keys(client_public_keys)]. *)
Definition __init__ {S : Type} `{!State S} (state : S)
    (client_public_keys : gset bytes) : S :=
  store_client_public_keys client_public_keys state.

(** ** The Key/State Store *)

(** Modelled from the spec: the Key/State Store of section 4.1 (the code of
    [flwr.server.superlink.state] is not among the sources). It holds the
    trusted key set, the two directions of the key/node-id map and the lease
    of each node. *)
Record InMemoryState := mkState {
  client_public_keys : gset bytes;
  public_key_to_node_id : gmap bytes Z;
  node_id_to_public_key : gmap Z bytes;
  node_ping_interval : gmap Z float;
}.

(** Modelled from the spec: [store_client_public_keys] replaces the trusted
    set. *)
Definition in_memory_store_client_public_keys (keys : gset bytes)
    (s : InMemoryState) : InMemoryState :=
  mkState keys (public_key_to_node_id s) (node_id_to_public_key s)
          (node_ping_interval s).

(** Modelled from the spec: [store_node_id_client_public_key_pair]
    establishes or overwrites the binding, in both directions. *)
Definition in_memory_store_pair (key : bytes) (n : Z)
    (s : InMemoryState) : InMemoryState :=
  mkState (client_public_keys s)
          (<[key := n]> (public_key_to_node_id s))
          (<[n := key]> (node_id_to_public_key s))
          (node_ping_interval s).

(** Modelled from the spec: [restore_node] marks the node live again with a
    refreshed lease. *)
Definition in_memory_restore_node (n : Z) (ping : float)
    (s : InMemoryState) : InMemoryState :=
  mkState (client_public_keys s) (public_key_to_node_id s)
          (node_id_to_public_key s) (<[n := ping]> (node_ping_interval s)).

(** Modelled from the spec: the store's operations; [get_node_id] fails
    ([None]) when the key has no current binding. *)
#[export] Instance in_memory_state : State InMemoryState := {
  store_client_public_keys := in_memory_store_client_public_keys;
  get_client_public_keys := client_public_keys;
  get_node_id := fun key s => public_key_to_node_id s !! key;
  store_node_id_client_public_key_pair := in_memory_store_pair;
  restore_node := in_memory_restore_node;
}.

Definition empty_state : InMemoryState := mkState ∅ ∅ ∅ ∅.

(** ** Reference collaborators for the concrete scenarios *)

Module Reference.

Local Open Scope N_scope.

(** URL-safe base64 with padding (RFC 4648, section 5), on canonical input. *)
Definition b64_char (n : N) : Byte.byte :=
  let code :=
    if n <? 26 then n + 65
    else if n <? 52 then n + 71
    else if n <? 62 then n - 4
    else if n =? 62 then 45 else 95 in
  default Byte.x00 (Byte.of_N code).

Definition b64_value (b : Byte.byte) : option N :=
  let c := Byte.to_N b in
  if (65 <=? c) && (c <=? 90) then Some (c - 65)
  else if (97 <=? c) && (c <=? 122) then Some (c - 71)
  else if (48 <=? c) && (c <=? 57) then Some (c + 4)
  else if c =? 45 then Some 62
  else if c =? 95 then Some 63
  else None.

Definition pad : Byte.byte := Byte.x3d.

Definition byte_of (n : N) : Byte.byte := default Byte.x00 (Byte.of_N (n mod 256)).

Fixpoint b64encode (l : bytes) : bytes :=
  match l with
  | [] => []
  | [a] =>
      let n := Byte.to_N a * 16 in
      [b64_char (n / 64); b64_char (n mod 64); pad; pad]
  | [a; b] =>
      let n := (Byte.to_N a * 256 + Byte.to_N b) * 4 in
      [b64_char (n / 4096); b64_char (n / 64 mod 64); b64_char (n mod 64); pad]
  | a :: b :: c :: rest =>
      let n := Byte.to_N a * 65536 + Byte.to_N b * 256 + Byte.to_N c in
      b64_char (n / 262144) :: b64_char (n / 4096 mod 64)
        :: b64_char (n / 64 mod 64) :: b64_char (n mod 64) :: b64encode rest
  end.

Fixpoint b64decode (l : bytes) : option bytes :=
  match l with
  | [] => Some []
  | a :: b :: c :: d :: rest =>
      va ← b64_value a;
      vb ← b64_value b;
      if decide (c = pad) then
        if decide (d = pad ∧ rest = []) then Some [byte_of ((va * 64 + vb) / 16)]
        else None
      else
        vc ← b64_value c;
        if decide (d = pad) then
          if decide (rest = []) then
            let n := (va * 4096 + vb * 64 + vc) / 4 in
            Some [byte_of (n / 256); byte_of n]
          else None
        else
          vd ← b64_value d;
          tl ← b64decode rest;
          let n := va * 262144 + vb * 4096 + vc * 64 + vd in
          Some (byte_of (n / 65536) :: byte_of (n / 256) :: byte_of n :: tl)
  | _ => None
  end.

(** A stand-in for protobuf serialisation: a tag and the node ids. *)
Definition z_byte (z : Z) : Byte.byte := byte_of (Z.to_N (z mod 256)).

Definition serialize (r : Request) : bytes :=
  match r with
  | CreateNodeRequest _ => [Byte.x01]
  | DeleteNodeRequest n => [Byte.x02; z_byte (node_id n)]
  | PullTaskInsRequest n _ => [Byte.x03; z_byte (node_id n)]
  | PushTaskResRequest l =>
      Byte.x04 :: map (fun r => z_byte (node_id (consumer (task r)))) l
  | OtherRequest _ => [Byte.x05]
  end.

#[export] Instance encoding : Encoding := {
  urlsafe_b64decode := b64decode;
  urlsafe_b64encode := b64encode;
  SerializeToString := serialize;
}.

(** A stand-in for the crypto collaborator, with the interface's shape and
    none of its strength: keys are non-empty byte strings, the shared secret
    is the concatenation of both keys, and the token of a message is the
    secret followed by the message. *)
Definition toy_hmac (key message : bytes) : bytes := (key ++ message)%list.

#[export] Instance crypto : Crypto := {
  PublicKey := bytes;
  PrivateKey := bytes;
  public_key_to_bytes := fun k => k;
  bytes_to_public_key := fun b => if decide (b = []) then None else Some b;
  generate_shared_key := fun sk pk => Some (sk ++ pk)%list;
  verify_hmac := fun key message tag => bool_decide (tag = toy_hmac key message);
}.

(** A stand-in for the fleet servicer behind the gate: [CreateNode] mints
    the next unused node id and records its lease, the other calls answer
    with their empty response. *)
Definition servicer (request : Request) (s : InMemoryState)
    : HandlerResult * InMemoryState :=
  match request with
  | CreateNodeRequest ping =>
      let n := (Z.of_nat (size (node_ping_interval s)) + 1)%Z in
      (HandlerReturned (CreateNodeResponse {| node_id := n; anonymous := false |}),
       in_memory_restore_node n ping s)
  | DeleteNodeRequest _ => (HandlerReturned DeleteNodeResponse, s)
  | PullTaskInsRequest _ _ => (HandlerReturned (PullTaskInsResponse []), s)
  | PushTaskResRequest _ => (HandlerReturned (PushTaskResResponse []), s)
  | OtherRequest what => (HandlerRaised what, s)
  end.

(** The scenarios: a server key pair, a trusted client key [KA] (its header
    value is the text AQID), a key [KB] nobody trusts, and the stores a call
    can find. *)
Definition server_sk : PrivateKey := [Byte.x0a].
Definition server_pk : PublicKey := [Byte.x0b].
Definition KA : bytes := [Byte.x01; Byte.x02; Byte.x03].
Definition KB : bytes := [Byte.x04; Byte.x05; Byte.x06].

Definition trusted_store : InMemoryState := __init__ empty_state {[ KA ]}.

Definition bound_store : InMemoryState :=
  in_memory_restore_node 7 30%float (in_memory_store_pair KA 7 trusted_store).

(** The token a client holding [KA] computes for a request. *)
Definition token (request : Request) : bytes :=
  b64encode (toy_hmac ((server_sk : bytes) ++ KA)%list (serialize request)).

Definition metadata_of (public_key : MetaValue) (auth_token : MetaValue)
    : Metadata :=
  [(_PUBLIC_KEY_HEADER, public_key); (_AUTH_TOKEN_HEADER, auth_token)].

Definition node7 : Node := {| node_id := 7; anonymous := false |}.
Definition node9 : Node := {| node_id := 9; anonymous := false |}.

End Reference.

(** ** Notions the further properties are stated with *)

(** The bytes of a metadata value: [value.encode()] for a [str], the value
    itself for [bytes]. *)
Definition value_bytes (value : MetaValue) : bytes :=
  match value with
  | MStr s => encode s
  | MBytes b => b
  end.

(** The calls a transition added to the trace. *)
Definition new_events {S} (before after : World S) : list Event :=
  drop (length (trace before)) (trace after).

(** The requests handed to the wrapped handler, in order. *)
Definition handler_calls (events : list Event) : list Request :=
  omap (fun e => match e with
                 | CallUnaryUnary request => Some request
                 | _ => None
                 end) events.

(** The calls by which the gate itself writes to the store. *)
Definition is_store_write (e : Event) : bool :=
  match e with
  | CallRestoreNode _ _ | CallStoreNodeIdClientPublicKeyPair _ _ => true
  | _ => false
  end.

(** [isinstance(request, (DeleteNodeRequest, PullTaskInsRequest,
    PushTaskResRequest))]. *)
Definition session_kind (request : Request) : bool :=
  match request with
  | DeleteNodeRequest _ | PullTaskInsRequest _ _ | PushTaskResRequest _ => true
  | CreateNodeRequest _ | OtherRequest _ => false
  end.

(** ** Further inputs for the concrete scenarios *)

Module Scenarios.
Import Reference.

(** A servicer that is down: every call raises. *)
Definition unavailable (request : Request) (s : InMemoryState)
    : HandlerResult * InMemoryState :=
  (HandlerRaised "UNAVAILABLE", s).

(** Metadata with a header of another name first and the public-key header
    twice. *)
Definition crowded_metadata : Metadata :=
  [("user-agent", MStr "grpc-python")] ++
  (_PUBLIC_KEY_HEADER, MStr "AQID") :: [(_PUBLIC_KEY_HEADER, MStr "BAUG")].

End Scenarios.

End Interceptor.

(* ===================================================================== *)
(** * driver/app.py *)
(* ===================================================================== *)

(** The module is modelled as it is written. Three of the names it uses are
    bound nowhere in it: [List] (in an annotation of
    [update_client_manager], line 161), [certificates] (where [start_driver]
    builds the thread, line 136) and [cast] (where the loop builds a proxy,
    lines 190 and 192). Python raises [NameError] where it looks such a name
    up, and so does the model: a name is resolved against the local names,
    the global names the module has bound, and the builtins. *)

Module DriverApp.

(** ** Names *)

Inductive Exn :=
| NameError (name : string)
| KeyError (key : Z)
| RuntimeError (message : string)
| OSError.

(** The builtins the file uses. *)
Definition builtins : list string :=
  ["str"; "bytes"; "bool"; "int"; "isinstance"; "set"; "RuntimeError"].

(** Python looks a name up in the local scope, then among the globals of
    the module, then among the builtins. *)
Definition resolves (globals locals : list string) (name : string) : bool :=
  bool_decide (name ∈ locals ++ globals ++ builtins).

(** The first of the names an expression looks up, taken in the order of
    evaluation, that is bound nowhere. *)
Definition first_unbound (globals locals names : list string) : option string :=
  find (fun name => negb (resolves globals locals name)) names.

(** ** The module body *)

(** The statements of the module body: the imports, the assignments of the
    two constants, and the two [def]s with the names their defaults and
    their annotations look up. *)
Inductive Statement :=
| Import (names : list string)
| Assign (name : string)
| Def (name : string) (defaults annotations : list string).

(** Lines 18-36: what the imports bind (they are taken to succeed). *)
Definition imports : list string :=
  ["sys"; "threading"; "time"; "INFO"; "Path"; "Dict"; "Optional"; "Union";
   "EventType"; "event"; "parse_address"; "log"; "ServerConfig";
   "init_defaults"; "run_fl"; "ClientManager"; "History"; "Server";
   "Strategy"; "Driver"; "DriverClientProxy"; "GrpcDriver"].

(** Lines 50-56. *)
Definition start_driver_annotations : list string :=
  ["str"; "Optional"; "Server"; "Optional"; "ServerConfig"; "Optional";
   "Strategy"; "Optional"; "ClientManager"; "Optional"; "Union"; "bytes";
   "str"; "History"].

(** Lines 159-162. *)
Definition update_client_manager_annotations : list string :=
  ["Driver"; "ClientManager"; "List"; "bool"].

Definition module_statements : list Statement :=
  [Import imports;
   Assign "DEFAULT_SERVER_ADDRESS_DRIVER";
   Assign "ERROR_MESSAGE_DRIVER_NOT_CONNECTED";
   Def "start_driver" ["DEFAULT_SERVER_ADDRESS_DRIVER"]
       start_driver_annotations;
   Def "update_client_manager" [] update_client_manager_annotations].

(** A [def] evaluates the defaults of its parameters and then binds its
    name. Python up to 3.13 also evaluates the annotations of the parameters
    there ([eager_annotations]); later versions leave them unevaluated. *)
Definition execute_statement (eager_annotations : bool) (s : Statement)
    (globals : list string) : option Exn * list string :=
  match s with
  | Import names => (None, globals ++ names)
  | Assign name => (None, globals ++ [name])
  | Def name defaults annotations =>
      match first_unbound globals []
              (defaults ++ if eager_annotations then annotations else []) with
      | Some unbound => (Some (NameError unbound), globals)
      | None => (None, globals ++ [name])
      end
  end.

(** The statements run in order; the first that raises ends the import,
    with the globals bound so far. *)
Fixpoint execute (eager_annotations : bool) (statements : list Statement)
    (globals : list string) : option Exn * list string :=
  match statements with
  | [] => (None, globals)
  | s :: rest =>
      match execute_statement eager_annotations s globals with
      | (Some e, globals') => (Some e, globals')
      | (None, globals') => execute eager_annotations rest globals'
      end
  end.

Definition import_module (eager_annotations : bool)
    : option Exn * list string :=
  execute eager_annotations module_statements [].

(** The globals a function of the module finds when it runs. *)
Definition module_globals (eager_annotations : bool) : list string :=
  (import_module eager_annotations).2.

(** ** The body of the loop *)

Record GrpcDriver := {
  driver_service_address : string;
  certificates : option bytes;
}.

Record Driver := { grpc_driver : GrpcDriver; workload_id : Z }.

(** [DriverClientProxy(node_id, driver, anonymous, workload_id)]. *)
Record DriverClientProxy := {
  proxy_node_id : Z;
  proxy_driver : GrpcDriver;
  proxy_anonymous : bool;
  proxy_workload_id : Z;
}.

(** The [ClientManager] interface, as the loop uses it. *)
Class ClientManager (CM : Type) := {
  register : DriverClientProxy → CM → bool * CM;
  unregister : DriverClientProxy → CM → CM;
}.

(** What the loop does to the outside, in order. *)
Inductive Event :=
| GetNodes
| Unregister (client_proxy : DriverClientProxy)
| Register (client_proxy : DriverClientProxy) (accepted : bool)
| Sleep (seconds : Z).


(** The loop's variables: its cache [registered_nodes], and the client
    manager it drives. *)
Record LoopState (CM : Type) := mkLoop {
  registered_nodes : gmap Z DriverClientProxy;
  client_manager : CM;
  trace : list Event;
}.
Arguments mkLoop {CM} registered_nodes client_manager trace.
Arguments registered_nodes {CM} l.
Arguments client_manager {CM} l.
Arguments trace {CM} l.

(** A statement either falls through or raises, with the variables as they
    are at that point. *)
Inductive Result (CM : Type) :=
| Continue (st : LoopState CM)
| Failed (e : Exn) (st : LoopState CM).
Arguments Continue {CM} st.
Arguments Failed {CM} e st.

(** The variables as a statement leaves them, either way. *)
Definition result_state {CM} (r : Result CM) : LoopState CM :=
  match r with
  | Continue st => st
  | Failed _ st => st
  end.

(** [for x in xs: body]. *)
Fixpoint for_each {CM} (body : Z → LoopState CM → Result CM) (xs : list Z)
    (st : LoopState CM) : Result CM :=
  match xs with
  | [] => Continue st
  | x :: rest =>
      match body x st with
      | Continue st' => for_each body rest st'
      | Failed e st' => Failed e st'
      end
  end.

Definition emit {CM} (e : Event) (st : LoopState CM) : LoopState CM :=
  mkLoop (registered_nodes st) (client_manager st) (trace st ++ [e]).

(** The local names of [update_client_manager]: its parameters and the
    names it assigns. *)
Definition update_client_manager_locals : list string :=
  ["driver"; "client_manager"; "ref_exit_flag"; "registered_nodes";
   "all_node_ids"; "node"; "dead_nodes"; "new_nodes"; "node_id";
   "client_proxy"].

(** The names the expression of lines 188-193 looks up, in the order in
    which Python evaluates it. *)
Definition proxy_expression_names : list string :=
  ["DriverClientProxy"; "node_id"; "cast"; "GrpcDriver"; "driver";
   "cast"; "int"; "driver"].

(** The proxies the cache holds for a list of ids. *)
Definition cached {CM} (st : LoopState CM) (ids : list Z)
    : list DriverClientProxy :=
  omap (fun n => registered_nodes st !! n) ids.

Section Loop.
Context {CM : Type} `{!ClientManager CM}.
Variable globals : list string.
Variable driver : Driver.

(** Lines 181-184. *)
Definition unregister_dead (node_id : Z) (st : LoopState CM) : Result CM :=
  match registered_nodes st !! node_id with
  | None => Failed (KeyError node_id) st
  | Some client_proxy =>
      Continue (mkLoop (delete node_id (registered_nodes st))
                       (unregister client_proxy (client_manager st))
                       (trace st ++ [Unregister client_proxy]))
  end.

(** Lines 187-197: the proxy is built first, which looks up every name of
    [proxy_expression_names]; only then is it registered. *)
Definition register_new (node_id : Z) (st : LoopState CM) : Result CM :=
  match first_unbound globals update_client_manager_locals
          proxy_expression_names with
  | Some name => Failed (NameError name) st
  | None =>
      let client_proxy :=
        {| proxy_node_id := node_id;
           proxy_driver := grpc_driver driver;
           proxy_anonymous := false;
           proxy_workload_id := workload_id driver |} in
      let '(accepted, cm) := register client_proxy (client_manager st) in
      if accepted then
        Continue (mkLoop (<[node_id := client_proxy]> (registered_nodes st)) cm
                         (trace st ++ [Register client_proxy true]))
      else
        Failed (RuntimeError "Could not register node.")
               (mkLoop (registered_nodes st) cm
                       (trace st ++ [Register client_proxy false]))
  end.

(** Line 176. *)
Definition all_node_ids (fetched : list Node) : gset Z :=
  list_to_set (node_id <$> fetched).

(** Line 177. *)
Definition dead_nodes (fetched : list Node) (st : LoopState CM) : gset Z :=
  dom (registered_nodes st) ∖ all_node_ids fetched.

(** Line 178. *)
Definition new_nodes (fetched : list Node) (st : LoopState CM) : gset Z :=
  all_node_ids fetched ∖ dom (registered_nodes st).

(** One pass of the loop body (lines 176-200) once [get_nodes()] has
    returned, with the two sets iterated in the given orders. *)
Definition run_pass (dead_order new_order : list Z) (st : LoopState CM)
    : Result CM :=
  match for_each unregister_dead dead_order (emit GetNodes st) with
  | Failed e st' => Failed e st'
  | Continue st1 =>
      match for_each register_new new_order st1 with
      | Failed e st' => Failed e st'
      | Continue st2 => Continue (emit (Sleep 3) st2)
      end
  end.

(** The variables when the first [for] of a pass is over, having gone over
    the dead ids in the order [dead_order]: the cache keeps the polled ids,
    and the proxies it held for the others have been unregistered. *)
Definition after_unregister (fetched : list Node) (dead_order : list Z)
    (st : LoopState CM) : LoopState CM :=
  mkLoop (filter (fun kv => kv.1 ∈ all_node_ids fetched) (registered_nodes st))
         (foldl (fun cm client_proxy => unregister client_proxy cm)
                (client_manager st) (cached st dead_order))
         (trace st ++ GetNodes :: (Unregister <$> cached st dead_order)).

(** Python iterates a set over each of its elements once, in an order that
    the value of the set does not determine: [order] is one of them. *)
Definition iterates (X : gset Z) (order : list Z) : Prop :=
  order ≡ₚ elements X.

(** The outcomes of one pass on the answer [fetched]. *)
Definition pass (fetched : list Node) (st : LoopState CM) (r : Result CM)
    : Prop :=
  ∃ dead_order new_order,
    iterates (dead_nodes fetched st) dead_order
    ∧ iterates (new_nodes fetched st) new_order
    ∧ r = run_pass dead_order new_order st.

End Loop.

(** The answer of the registry that lists the node ids [ids]. *)
Definition nodes_of (ids : list Z) : list Node :=
  (fun n => {| node_id := n; anonymous := false |}) <$> ids.

(** ** [start_driver] *)

(** [root_certificates : Optional[Union[bytes, str]]]. *)
Inductive Certificates :=
| CertificateBytes (b : bytes)
| CertificatePath (path : string).

(** What the caller's thread does to the outside, in order. *)
Inductive MainEvent :=
| Telemetry (event_type : string)
| ReadBytes (path : string)
| Connect (address : string) (root_certificates : option bytes)
| InitDefaults
| LogStarting
| ThreadStart
| RunFl
| SetExitFlag
| ThreadJoin.

(** The steps of lines 141-151. *)
Definition touches_thread (e : MainEvent) : bool :=
  match e with
  | ThreadStart | RunFl | SetExitFlag | ThreadJoin => true
  | _ => false
  end.

(** How [start_driver] ends: it returns the history, leaves through
    [sys.exit], or raises, an exception of its own or that of [run_fl]. *)
Inductive MainOutcome (History : Type) :=
| Returns (hist : History)
| SysExit (message : string)
| Raises (e : Exn)
| RaisesFromRunFl.
Arguments Returns {History} hist.
Arguments SysExit {History} message.
Arguments Raises {History} e.
Arguments RaisesFromRunFl {History}.

(** The local names of [start_driver] that are bound when line 133 runs. *)
Definition start_driver_locals : list string :=
  ["server_address"; "server"; "config"; "strategy"; "client_manager";
   "root_certificates"; "parsed_address"; "host"; "port"; "is_v6"; "address";
   "driver"; "lock"; "initialized_server"; "initialized_config";
   "ref_exit_flag"].

(** The names the expression of lines 133-140 looks up, in the order in
    which Python evaluates it. *)
Definition thread_expression_names : list string :=
  ["threading"; "update_client_manager"; "Driver"; "address"; "certificates";
   "initialized_server"; "ref_exit_flag"].

Section StartDriver.
Variable History : Type.
Variable globals : list string.

(** [flwr.common.address.parse_address]: [None] when the address cannot be
    parsed. *)
Variable parse_address : string → option (string * Z * option bool).

(** [Path(p).read_bytes()]: [None] when it raises. *)
Variable read_bytes : string → option bytes.

(** [run_fl(...)]: the history it returns, [None] when it raises. *)
Variable run_fl : option History.

(** Line 109. *)
Definition format_address (host : string) (port : Z) (is_v6 : option bool)
    : string :=
  if default false is_v6 then "[" +:+ host +:+ "]:" +:+ pretty port
  else host +:+ ":" +:+ pretty port.

(** Lines 131-155, once the driver is connected and the defaults are
    initialised. *)
Definition start_thread_and_train (events : list MainEvent)
    : MainOutcome History * list MainEvent :=
  match first_unbound globals start_driver_locals thread_expression_names with
  | Some name => (Raises (NameError name), events)
  | None =>
      match run_fl with
      | None => (RaisesFromRunFl, events ++ [ThreadStart; RunFl])
      | Some hist =>
          (Returns hist,
           events ++ [ThreadStart; RunFl; SetExitFlag; ThreadJoin;
                      Telemetry "START_SERVER_LEAVE"])
      end
  end.

(** Lines 111-129. The calls of [GrpcDriver], [connect], [threading.Lock],
    [init_defaults] and [log] are taken to return. *)
Definition connect_and_initialise (address : string)
    (root_certificates : option bytes) (events : list MainEvent)
    : MainOutcome History * list MainEvent :=
  start_thread_and_train
    (events ++ [Connect address root_certificates; InitDefaults; LogStarting]).

(** Lines 102-155. *)
Definition start_driver (server_address : string)
    (root_certificates : option Certificates)
    : MainOutcome History * list MainEvent :=
  let entered := [Telemetry "START_DRIVER_ENTER"] in
  match parse_address server_address with
  | None =>
      (SysExit ("Server IP address (" +:+ server_address
                +:+ ") cannot be parsed."),
       entered)
  | Some (host, port, is_v6) =>
      let address := format_address host port is_v6 in
      match root_certificates with
      | Some (CertificatePath path) =>
          match read_bytes path with
          | None => (Raises OSError, entered ++ [ReadBytes path])
          | Some b =>
              connect_and_initialise address (Some b)
                (entered ++ [ReadBytes path])
          end
      | Some (CertificateBytes b) =>
          connect_and_initialise address (Some b) entered
      | None => connect_and_initialise address None entered
      end
  end.

End StartDriver.

(** ** A client manager, a driver and a registry for the concrete scenarios *)

(** The Client Manager of section 4.5 of the specification keeps a map from
    node id to proxy. *)
Abbreviation SimpleClientManager := (gmap Z DriverClientProxy).

(** Modelled from the spec: the Client Manager of section 4.5 (the code of
    [flwr.server.client_manager] is not among the sources): [register]
    answers false when the node id is already present and adds the proxy
    otherwise; [unregister] removes the proxy, and that of an absent proxy
    is tolerated silently. *)
#[export] Instance simple_client_manager : ClientManager SimpleClientManager := {
  register := fun proxy (cm : gmap Z DriverClientProxy) =>
    match cm !! proxy_node_id proxy with
    | Some _ => (false, cm)
    | None => (true, <[proxy_node_id proxy := proxy]> cm)
    end;
  unregister := fun proxy (cm : gmap Z DriverClientProxy) =>
    delete (proxy_node_id proxy) cm;
}.

Module Reference.

Definition grpc : GrpcDriver :=
  {| driver_service_address := "[::]:9091"; certificates := None |}.

Definition driver : Driver := {| grpc_driver := grpc; workload_id := 1 |}.


(** An address parser that knows the default address of the driver. *)
Definition parse_default (server_address : string)
    : option (string * Z * option bool) :=
  if decide (server_address = "[::]:9091") then Some ("::", 9091, Some true)
  else None.

(** No file can be read. *)
Definition no_file (path : string) : option bytes := None.

End Reference.

End DriverApp.

(* ===================================================================== *)
(** * Properties of the authenticating gate *)
(* ===================================================================== *)

Module GateProperties.
Import Interceptor.

(** Unfolds one intercepted call down to its collaborators. *)
Ltac gate_unfold :=
  unfold _generic_method_handler, bind, or_raise, lift, when, ret, raise,
    context_abort, context_send_initial_metadata, state_get_client_public_keys,
    state_get_node_id, state_restore_node,
    state_store_node_id_client_public_key_pair, message_handler_unary_unary,
    emit.

(** Normalises the traces of both sides of a goal. *)
Ltac trace_eq := cbn [store trace]; rewrite <- ?app_assoc; reflexivity.

Lemma absent_header_value key_string tuples :
  header_absent key_string tuples →
  _get_value_from_tuples key_string tuples = [].
Proof.
  intros Habs. unfold _get_value_from_tuples.
  assert (find (λ kv : string * MetaValue, bool_decide (kv.1 = key_string)) tuples
          = None) as ->; [|reflexivity].
  induction Habs as [|kv l Hkv _ IH]; [reflexivity|].
  cbn [find]. rewrite bool_decide_eq_false_2 by exact Hkv. exact IH.
Qed.

Section Gate.
Context {S : Type} `{!State S} `{!Encoding} `{!Crypto}.
Variable server_private_key : PrivateKey.
Variable server_public_key : PublicKey.
Variable unary_unary : Request → S → HandlerResult * S.

(** The value the gate takes for the caller's key. *)
Local Abbreviation client_key metadata :=
  (urlsafe_b64decode (_get_value_from_tuples _PUBLIC_KEY_HEADER metadata)).

Local Abbreviation denied := (Aborted UNAUTHENTICATED "Access denied!").

Local Abbreviation server_key_metadata :=
  [(_PUBLIC_KEY_HEADER,
    MBytes (urlsafe_b64encode (public_key_to_bytes server_public_key)))].

(** The membership test is the only thing between a decoded key and the
    branch on the request kind. *)
Lemma untrusted_key_denied request metadata (w : World S) k :
  client_key metadata = Some k →
  k ∉ get_client_public_keys (store w) →
  _generic_method_handler server_private_key server_public_key unary_unary
      request metadata w =
    (denied,
     mkWorld (store w)
             (trace w ++ [CallGetClientPublicKeys;
                          Abort UNAUTHENTICATED "Access denied!"])).
Proof.
  intros Hk Hnot. gate_unfold. rewrite Hk. cbn [store trace].
  rewrite bool_decide_eq_false_2 by exact Hnot. cbn [negb].
  f_equal. f_equal. trace_eq.
Qed.

(** What a session-authenticated call from a trusted key does once the HMAC
    check has run and the request's node id is resolved: it is denied when
    both tests fail, and handed to the wrapped handler otherwise. *)
Lemma session_call_decision request metadata (w : World S) k v rid :
  client_key metadata = Some k →
  k ∈ get_client_public_keys (store w) →
  session_verify server_private_key request metadata k = inr v →
  request_node_id request = inr rid →
  _generic_method_handler server_private_key server_public_key unary_unary
      request metadata w =
    if negb v && negb (node_id_eq (get_node_id k (store w)) rid) then
      (denied,
       mkWorld (store w)
               (trace w ++ [CallGetClientPublicKeys; CallGetNodeId k;
                            Abort UNAUTHENTICATED "Access denied!"]))
    else
      message_handler_unary_unary unary_unary request
        (mkWorld (store w)
                 (trace w ++ [CallGetClientPublicKeys; CallGetNodeId k])).
Proof.
  intros Hk Hin Hv Hrid.
  destruct request as [ping|node|node ids|l|what]; try discriminate Hrid;
    gate_unfold; rewrite Hk; cbn [store trace];
    rewrite bool_decide_eq_true_2 by exact Hin; cbn [negb];
    rewrite Hv, Hrid; cbn [store trace];
    destruct (negb v && negb (node_id_eq (get_node_id k (store w)) rid));
    cbn [store trace]; rewrite <- ?app_assoc; reflexivity.
Qed.

(** The wrapped handler never ends a call with the gate's own abort. *)
Lemma forwarded_not_aborted request (w : World S) code details :
  (message_handler_unary_unary unary_unary request w).1 ≠ Aborted code details.
Proof.
  unfold message_handler_unary_unary.
  destruct (unary_unary request (store w)) as [[response|what] s']; discriminate.
Qed.

(** A push of no results from a trusted key never reaches the decision: the
    call raises, in the HMAC stage or at [task_res_list[0]]. *)
Lemma empty_push_raises metadata (w : World S) k :
  client_key metadata = Some k →
  k ∈ get_client_public_keys (store w) →
  _generic_method_handler server_private_key server_public_key unary_unary
      (PushTaskResRequest []) metadata w =
    match session_verify server_private_key (PushTaskResRequest []) metadata k with
    | inl e => (Raised e, mkWorld (store w) (trace w ++ [CallGetClientPublicKeys]))
    | inr _ =>
        (Raised IndexError,
         mkWorld (store w)
                 (trace w ++ [CallGetClientPublicKeys; CallGetNodeId k]))
    end.
Proof.
  intros Hk Hin. gate_unfold. rewrite Hk. cbn [store trace].
  rewrite bool_decide_eq_true_2 by exact Hin. cbn [negb].
  destruct (session_verify _ _ _ _) as [e|v]; cbn [request_node_id store trace];
    rewrite <- ?app_assoc; reflexivity.
Qed.

(** A request of no protected kind is denied, trusted key or not. *)
Lemma unknown_kind_denied what metadata (w : World S) k :
  client_key metadata = Some k →
  (_generic_method_handler server_private_key server_public_key unary_unary
     (OtherRequest what) metadata w).1 = denied.
Proof.
  intros Hk. gate_unfold. rewrite Hk. cbn [store trace].
  by destruct (bool_decide _).
Qed.

(** However a call is denied, it is denied the same way, and before the
    caller has been sent anything. *)
Lemma aborted_is_denied request metadata (w : World S) code details :
  (_generic_method_handler server_private_key server_public_key unary_unary
     request metadata w).1 = Aborted code details →
  caller_view w
    (_generic_method_handler server_private_key server_public_key unary_unary
       request metadata w)
  = (denied, []).
Proof.
  unfold caller_view. gate_unfold. intros Hab.
  repeat (case_match; simplify_eq/=); try done;
    rewrite <- ?app_assoc, drop_app_length; reflexivity.
Qed.


(** C1, at the input where the code departs from it: a
    [PushTaskResRequest] with an empty [task_res_list], sent from a trusted
    key with a token that verifies. The claim has the valid token suffice
    for the call to be forwarded; the code raises [IndexError] at
    [request.task_res_list[0]], after the HMAC check and the lookup of the
    bound node id, and the wrapped handler is never called: the store is
    untouched and the trace of the call holds no [CallUnaryUnary]. *)
Theorem valid_token_empty_push_is_not_forwarded metadata (w : World S) k :
  client_key metadata = Some k →
  k ∈ get_client_public_keys (store w) →
  session_verify server_private_key (PushTaskResRequest []) metadata k = inr true →
  _generic_method_handler server_private_key server_public_key unary_unary
      (PushTaskResRequest []) metadata w =
    (Raised IndexError,
     mkWorld (store w) (trace w ++ [CallGetClientPublicKeys; CallGetNodeId k])).
Proof.
  intros Hk Hin Hv. rewrite (empty_push_raises _ _ _ Hk Hin), Hv. reflexivity.
Qed.

(** C2: a [CreateNodeRequest] from a trusted key that is bound to node id
    [N] calls [restore_node N ping_interval], stores the pair (key, [N])
    again and returns [CreateNodeResponse(node=Node(node_id=N,
    anonymous=False))]; the wrapped handler is not called (the trace of the
    call is exactly the five events listed). *)
Theorem reconnect_restores_bound_node ping_interval metadata (w : World S) k N :
  client_key metadata = Some k →
  k ∈ get_client_public_keys (store w) →
  get_node_id k (store w) = Some N →
  _generic_method_handler server_private_key server_public_key unary_unary
      (CreateNodeRequest ping_interval) metadata w =
    (Returned (CreateNodeResponse {| node_id := N; anonymous := false |}),
     mkWorld
       (store_node_id_client_public_key_pair k N
          (restore_node N ping_interval (store w)))
       (trace w ++ [CallGetClientPublicKeys;
                    SendInitialMetadata server_key_metadata;
                    CallGetNodeId k;
                    CallRestoreNode N ping_interval;
                    CallStoreNodeIdClientPublicKeyPair k N])).
Proof.
  intros Hk Hin Hbound. gate_unfold. rewrite Hk. cbn [store trace].
  rewrite bool_decide_eq_true_2 by exact Hin. cbn [negb store trace].
  rewrite Hbound. cbn [store trace]. rewrite <- !app_assoc. reflexivity.
Qed.

(** C3: the trusted set is a set of public keys, so the empty byte string,
    which base64 decodes the empty string to and which no public key is
    serialised as, is not in it. Then, for every request kind, a call that
    carries no public-key header, or whose decoded public-key header value
    is not in the trusted set, is aborted with UNAUTHENTICATED before any
    mutation: the store is the one the call started from, and the call made
    a single read of the trusted set. *)
Theorem untrusted_key_rejected_before_mutation
    request metadata (w : World S) :
  urlsafe_b64decode [] = Some [] →
  bytes_to_public_key [] = None →
  (∀ key, key ∈ get_client_public_keys (store w) →
          is_Some (bytes_to_public_key key)) →
  header_absent _PUBLIC_KEY_HEADER metadata
  ∨ (∃ k, client_key metadata = Some k
          ∧ k ∉ get_client_public_keys (store w)) →
  _generic_method_handler server_private_key server_public_key unary_unary
      request metadata w =
    (Aborted UNAUTHENTICATED "Access denied!",
     mkWorld (store w)
             (trace w ++ [CallGetClientPublicKeys;
                          Abort UNAUTHENTICATED "Access denied!"])).
Proof.
  intros Hempty Hnokey Hkeys [Habs|(k & Hk & Hnot)].
  - apply untrusted_key_denied with [].
    + by rewrite (absent_header_value _ _ Habs).
    + intros Hin. destruct (Hkeys _ Hin) as [pk Hpk]. congruence.
  - by apply untrusted_key_denied with k.
Qed.

(** C4: a [CreateNodeRequest] from a trusted key with no binding
    ([get_node_id] fails) is handed to the wrapped handler; the gate then
    binds the key to the node id of the handler's response, on the store the
    handler left, and returns that response as it is. *)
Theorem first_contact_forwards_and_binds
    ping_interval metadata (w : World S) k node s' :
  client_key metadata = Some k →
  k ∈ get_client_public_keys (store w) →
  get_node_id k (store w) = None →
  unary_unary (CreateNodeRequest ping_interval) (store w)
    = (HandlerReturned (CreateNodeResponse node), s') →
  _generic_method_handler server_private_key server_public_key unary_unary
      (CreateNodeRequest ping_interval) metadata w =
    (Returned (CreateNodeResponse node),
     mkWorld
       (store_node_id_client_public_key_pair k (node_id node) s')
       (trace w ++ [CallGetClientPublicKeys;
                    SendInitialMetadata server_key_metadata;
                    CallGetNodeId k;
                    CallUnaryUnary (CreateNodeRequest ping_interval);
                    CallStoreNodeIdClientPublicKeyPair k (node_id node)])).
Proof.
  intros Hk Hin Hbound Hh. gate_unfold. rewrite Hk. cbn [store trace].
  rewrite bool_decide_eq_true_2 by exact Hin. cbn [negb store trace].
  rewrite Hbound. cbn [store trace]. rewrite Hh.
  cbn [response_node store trace]. rewrite <- !app_assoc. reflexivity.
Qed.

(** C8: every rejection the gate emits carries the same status code and
    the same message. Two calls that are both aborted, whatever their
    requests, metadata and stores (so whatever the cause: unknown key,
    failed HMAC with a mismatching node id, or unrecognised request kind),
    surface the same thing to their callers: the abort
    [(UNAUTHENTICATED, "Access denied!")] and no initial metadata. *)
Theorem rejections_are_indistinguishable
    request1 metadata1 (w1 : World S) request2 metadata2 (w2 : World S)
    code1 details1 code2 details2 :
  (_generic_method_handler server_private_key server_public_key unary_unary
     request1 metadata1 w1).1 = Aborted code1 details1 →
  (_generic_method_handler server_private_key server_public_key unary_unary
     request2 metadata2 w2).1 = Aborted code2 details2 →
  caller_view w1
    (_generic_method_handler server_private_key server_public_key unary_unary
       request1 metadata1 w1)
  = caller_view w2
      (_generic_method_handler server_private_key server_public_key unary_unary
         request2 metadata2 w2)
  ∧ code1 = UNAUTHENTICATED ∧ details1 = "Access denied!"
  ∧ code2 = UNAUTHENTICATED ∧ details2 = "Access denied!".
Proof.
  intros H1 H2.
  pose proof (aborted_is_denied _ _ _ _ _ H1) as V1.
  pose proof (aborted_is_denied _ _ _ _ _ H2) as V2.
  split; [by rewrite V1, V2|].
  unfold caller_view in V1, V2. rewrite H1 in V1. rewrite H2 in V2.
  by simplify_eq.
Qed.

(** C9: on every [CreateNodeRequest] from a trusted key the gate sends the
    server's public key, base64-encoded under the public-key header, as
    initial metadata before it looks up the caller's binding: whatever the
    store holds for the key (bound or not), the trace of the call starts
    with the read of the trusted set, then [SendInitialMetadata], then
    [CallGetNodeId]. *)
Theorem create_node_sends_server_key_before_lookup
    ping_interval metadata (w : World S) k :
  client_key metadata = Some k →
  k ∈ get_client_public_keys (store w) →
  ∃ rest,
    trace (_generic_method_handler server_private_key server_public_key
             unary_unary (CreateNodeRequest ping_interval) metadata w).2
    = (trace w
       ++ [CallGetClientPublicKeys;
           SendInitialMetadata
             [(_PUBLIC_KEY_HEADER,
               MBytes (urlsafe_b64encode (public_key_to_bytes server_public_key)))];
           CallGetNodeId k]
       ++ rest)%list.
Proof.
  intros Hk Hin. gate_unfold. rewrite Hk. cbn [store trace].
  rewrite bool_decide_eq_true_2 by exact Hin. cbn [negb store trace].
  destruct (get_node_id k (store w)) as [n|]; cbn [store trace snd].
  - eexists. rewrite <- !app_assoc. cbn [app]. reflexivity.
  - destruct (unary_unary _ _) as [[response|what] s']; cbn [store trace snd].
    + destruct (response_node response); cbn [store trace snd];
        eexists; rewrite <- !app_assoc; cbn [app]; reflexivity.
    + eexists; rewrite <- !app_assoc; cbn [app]; reflexivity.
Qed.


End Gate.
(** ** The gate on concrete calls *)

Import Interceptor.Reference.

Lemma KA_trusted (s : InMemoryState) :
  client_public_keys s = {[ KA ]} → KA ∈ get_client_public_keys s.
Proof. intros Hs. cbn. rewrite Hs. by apply elem_of_singleton. Qed.

(** The failing input of C1: the empty push with the right token. *)
Lemma valid_token_empty_push_scenario :
  _generic_method_handler server_sk server_pk servicer
      (PushTaskResRequest [])
      (metadata_of (MStr "AQID") (MBytes (token (PushTaskResRequest []))))
      (mkWorld bound_store []) =
    (Raised IndexError,
     mkWorld bound_store [CallGetClientPublicKeys; CallGetNodeId KA]).
Proof.
  exact (valid_token_empty_push_is_not_forwarded server_sk server_pk servicer
           (metadata_of (MStr "AQID") (MBytes (token (PushTaskResRequest []))))
           (mkWorld bound_store []) KA
           eq_refl (KA_trusted bound_store eq_refl) eq_refl).
Defined.

(** C2 on a call: [KA] is bound to node 7 and registers again. *)
Lemma reconnect_scenario :
  _generic_method_handler server_sk server_pk servicer
      (CreateNodeRequest 30%float) (metadata_of (MStr "AQID") (MStr ""))
      (mkWorld bound_store []) =
    (Returned (CreateNodeResponse node7),
     mkWorld
       (in_memory_store_pair KA 7 (in_memory_restore_node 7 30%float bound_store))
       [CallGetClientPublicKeys;
        SendInitialMetadata
          [(_PUBLIC_KEY_HEADER, MBytes (b64encode server_pk))];
        CallGetNodeId KA;
        CallRestoreNode 7 30%float;
        CallStoreNodeIdClientPublicKeyPair KA 7]).
Proof.
  exact (reconnect_restores_bound_node server_sk server_pk servicer
           30%float (metadata_of (MStr "AQID") (MStr ""))
           (mkWorld bound_store []) KA 7
           eq_refl (KA_trusted bound_store eq_refl) eq_refl).
Defined.

(** The trusted sets of the scenarios hold [KA] alone, which is a public
    key. *)
Lemma trusted_keys_are_public_keys (s : InMemoryState) :
  client_public_keys s = {[ KA ]} →
  ∀ key, key ∈ get_client_public_keys s → is_Some (bytes_to_public_key key).
Proof.
  intros Hs key Hin. cbn in Hin. rewrite Hs in Hin.
  apply elem_of_singleton in Hin as ->. by eexists.
Qed.

(** C3 on two calls to a store that trusts [KA] alone: a pull under the
    key [KB], and a registration with no public-key header. *)
Lemma untrusted_key_scenario :
  _generic_method_handler server_sk server_pk servicer
      (PullTaskInsRequest node7 [])
      (metadata_of (MBytes (b64encode KB)) (MStr "AAAA"))
      (mkWorld bound_store []) =
    (Aborted UNAUTHENTICATED "Access denied!",
     mkWorld bound_store
             [CallGetClientPublicKeys; Abort UNAUTHENTICATED "Access denied!"])
  ∧ _generic_method_handler server_sk server_pk servicer
      (CreateNodeRequest 30%float) [] (mkWorld trusted_store []) =
    (Aborted UNAUTHENTICATED "Access denied!",
     mkWorld trusted_store
             [CallGetClientPublicKeys; Abort UNAUTHENTICATED "Access denied!"]).
Proof.
  split.
  - refine (untrusted_key_rejected_before_mutation server_sk server_pk servicer
              (PullTaskInsRequest node7 [])
              (metadata_of (MBytes (b64encode KB)) (MStr "AAAA"))
              (mkWorld bound_store []) eq_refl eq_refl
              (trusted_keys_are_public_keys bound_store eq_refl)
              (or_intror (ex_intro _ KB (conj eq_refl _)))).
    cbn. intros Hin. apply elem_of_singleton in Hin. discriminate Hin.
  - exact (untrusted_key_rejected_before_mutation server_sk server_pk servicer
             (CreateNodeRequest 30%float) [] (mkWorld trusted_store [])
             eq_refl eq_refl
             (trusted_keys_are_public_keys trusted_store eq_refl)
             (or_introl (list.Forall_nil_2 _))).
Defined.

(** C4 on a call: [KA] is trusted and unbound; the servicer mints node 1. *)
Lemma first_contact_scenario :
  _generic_method_handler server_sk server_pk servicer
      (CreateNodeRequest 30%float) (metadata_of (MStr "AQID") (MStr ""))
      (mkWorld trusted_store []) =
    (Returned (CreateNodeResponse {| node_id := 1; anonymous := false |}),
     mkWorld
       (in_memory_store_pair KA 1 (in_memory_restore_node 1 30%float trusted_store))
       [CallGetClientPublicKeys;
        SendInitialMetadata
          [(_PUBLIC_KEY_HEADER, MBytes (b64encode server_pk))];
        CallGetNodeId KA;
        CallUnaryUnary (CreateNodeRequest 30%float);
        CallStoreNodeIdClientPublicKeyPair KA 1]).
Proof.
  exact (first_contact_forwards_and_binds server_sk server_pk servicer
           30%float (metadata_of (MStr "AQID") (MStr ""))
           (mkWorld trusted_store []) KA
           {| node_id := 1; anonymous := false |}
           (in_memory_restore_node 1 30%float trusted_store)
           eq_refl (KA_trusted trusted_store eq_refl) eq_refl eq_refl).
Defined.

(** The scenario of the specification: [KA] registers and is given node 1
    by the servicer; it registers again, with another ping interval, and is
    given node 1 again, not a fresh id. *)
Lemma reconnect_after_first_contact_scenario :
  (_generic_method_handler server_sk server_pk servicer
     (CreateNodeRequest 60%float) (metadata_of (MStr "AQID") (MStr ""))
     (_generic_method_handler server_sk server_pk servicer
        (CreateNodeRequest 30%float) (metadata_of (MStr "AQID") (MStr ""))
        (mkWorld trusted_store [])).2).1
  = Returned (CreateNodeResponse {| node_id := 1; anonymous := false |}).
Proof. vm_compute. reflexivity. Qed.

(** C8 on three calls, one per cause: a pull under the untrusted [KB]; a
    pull for node 9 under [KA], bound to node 7, with a token that does not
    verify; and a request of no known kind under [KA]. *)
Lemma three_rejections_scenario :
  caller_view (mkWorld bound_store [])
    (_generic_method_handler server_sk server_pk servicer
       (PullTaskInsRequest node7 [])
       (metadata_of (MBytes (b64encode KB)) (MStr "AAAA"))
       (mkWorld bound_store []))
  = caller_view (mkWorld bound_store [])
      (_generic_method_handler server_sk server_pk servicer
         (PullTaskInsRequest node9 []) (metadata_of (MStr "AQID") (MStr "AAAA"))
         (mkWorld bound_store []))
  ∧ caller_view (mkWorld bound_store [])
      (_generic_method_handler server_sk server_pk servicer
         (PullTaskInsRequest node9 []) (metadata_of (MStr "AQID") (MStr "AAAA"))
         (mkWorld bound_store []))
  = caller_view (mkWorld trusted_store [])
      (_generic_method_handler server_sk server_pk servicer
         (OtherRequest "GetRunRequest") (metadata_of (MStr "AQID") (MStr "AAAA"))
         (mkWorld trusted_store [])).
Proof.
  split.
  - exact (proj1 (rejections_are_indistinguishable server_sk server_pk servicer
                    (PullTaskInsRequest node7 [])
                    (metadata_of (MBytes (b64encode KB)) (MStr "AAAA"))
                    (mkWorld bound_store [])
                    (PullTaskInsRequest node9 [])
                    (metadata_of (MStr "AQID") (MStr "AAAA"))
                    (mkWorld bound_store [])
                    UNAUTHENTICATED "Access denied!"
                    UNAUTHENTICATED "Access denied!" eq_refl eq_refl)).
  - exact (proj1 (rejections_are_indistinguishable server_sk server_pk servicer
                    (PullTaskInsRequest node9 [])
                    (metadata_of (MStr "AQID") (MStr "AAAA"))
                    (mkWorld bound_store [])
                    (OtherRequest "GetRunRequest")
                    (metadata_of (MStr "AQID") (MStr "AAAA"))
                    (mkWorld trusted_store [])
                    UNAUTHENTICATED "Access denied!"
                    UNAUTHENTICATED "Access denied!" eq_refl eq_refl)).
Defined.

(** C9 on the two branches: [KA] bound (reconnect) and unbound (fresh
    registration). *)
Lemma server_key_sent_scenario :
  (∃ rest,
     trace (_generic_method_handler server_sk server_pk servicer
              (CreateNodeRequest 30%float) (metadata_of (MStr "AQID") (MStr ""))
              (mkWorld bound_store [])).2
     = ([] ++ [CallGetClientPublicKeys;
               SendInitialMetadata
                 [(_PUBLIC_KEY_HEADER,
                   MBytes (urlsafe_b64encode (public_key_to_bytes server_pk)))];
               CallGetNodeId KA] ++ rest)%list)
  ∧ (∃ rest,
       trace (_generic_method_handler server_sk server_pk servicer
                (CreateNodeRequest 30%float) (metadata_of (MStr "AQID") (MStr ""))
                (mkWorld trusted_store [])).2
       = ([] ++ [CallGetClientPublicKeys;
                 SendInitialMetadata
                   [(_PUBLIC_KEY_HEADER,
                     MBytes (urlsafe_b64encode (public_key_to_bytes server_pk)))];
                 CallGetNodeId KA] ++ rest)%list).
Proof.
  split.
  - exact (create_node_sends_server_key_before_lookup server_sk server_pk
             servicer 30%float (metadata_of (MStr "AQID") (MStr ""))
             (mkWorld bound_store []) KA
             eq_refl (KA_trusted bound_store eq_refl)).
  - exact (create_node_sends_server_key_before_lookup server_sk server_pk
             servicer 30%float (metadata_of (MStr "AQID") (MStr ""))
             (mkWorld trusted_store []) KA
             eq_refl (KA_trusted trusted_store eq_refl)).
Defined.



End GateProperties.

(* ===================================================================== *)
(** * Properties of the driver app *)
(* ===================================================================== *)

Module LoopProperties.
Import DriverApp.

(** ** The unbound names *)

(** With annotations evaluated at the [def], the import of the module
    raises at [def update_client_manager] and leaves that name unbound;
    without, the import completes. *)
Lemma import_module_outcome eager_annotations :
  import_module eager_annotations =
    if eager_annotations then
      (Some (NameError "List"),
       imports ++ ["DEFAULT_SERVER_ADDRESS_DRIVER";
                   "ERROR_MESSAGE_DRIVER_NOT_CONNECTED"; "start_driver"])
    else
      (None,
       imports ++ ["DEFAULT_SERVER_ADDRESS_DRIVER";
                   "ERROR_MESSAGE_DRIVER_NOT_CONNECTED"; "start_driver";
                   "update_client_manager"]).
Proof. destruct eager_annotations; vm_compute; reflexivity. Qed.

(** Building the proxy stops at the first [cast]. *)
Lemma cast_is_unbound eager_annotations :
  first_unbound (module_globals eager_annotations)
    update_client_manager_locals proxy_expression_names = Some "cast".
Proof. destruct eager_annotations; vm_compute; reflexivity. Qed.

(** Building the thread stops at [certificates], or already at
    [update_client_manager] when the import did not get to bind it. *)
Lemma thread_expression_unbound eager_annotations :
  first_unbound (module_globals eager_annotations)
    start_driver_locals thread_expression_names =
    Some (if eager_annotations then "update_client_manager"
          else "certificates").
Proof. destruct eager_annotations; vm_compute; reflexivity. Qed.

(** ** The two [for] loops *)

Section Pass.
Context {CM : Type} `{!ClientManager CM}.
Variable eager_annotations : bool.
Variable driver : Driver.

Local Abbreviation globals := (module_globals eager_annotations).

(** The first [for]: every id it is given is in the cache, so the lookup
    never raises; each proxy is unregistered and dropped. *)
Lemma unregister_phase ids (st : LoopState CM) :
  NoDup ids →
  (∀ n, n ∈ ids → n ∈ dom (registered_nodes st)) →
  ∃ cache,
    for_each unregister_dead ids st =
      Continue
        (mkLoop cache
           (foldl (fun cm p => unregister p cm) (client_manager st)
                  (cached st ids))
           (trace st ++ (Unregister <$> cached st ids)))
    ∧ dom cache = dom (registered_nodes st) ∖ list_to_set ids
    ∧ (∀ n, n ∉ ids → cache !! n = registered_nodes st !! n).
Proof.
  revert st. induction ids as [|x ids IH]; intros st Hnd Hin.
  - exists (registered_nodes st). cbn. rewrite app_nil_r.
    split; [by destruct st|]. split; [set_solver|done].
  - apply list.NoDup_cons in Hnd as [Hx Hnd].
    assert (x ∈ dom (registered_nodes st)) as Hxd by (apply Hin; left).
    apply elem_of_dom in Hxd as [p Hp].
    cbn [for_each]. unfold unregister_dead at 1. rewrite Hp.
    set (st1 := mkLoop (delete x (registered_nodes st))
                       (unregister p (client_manager st))
                       (trace st ++ [Unregister p])).
    destruct (IH st1 Hnd) as (cache & Hrun & Hdom & Hkeep).
    { intros n Hn. cbn. rewrite dom_delete_L. apply elem_of_difference.
      split; [apply Hin; by right|]. intros ->%elem_of_singleton. done. }
    assert (cached st1 ids = cached st ids) as Hcached.
    { unfold cached. apply list_omap_ext, Forall2_same_length_lookup.
      split; [done|]. intros i a b Ha Hb. simplify_eq. cbn.
      apply lookup_delete_ne. intros ->. apply Hx.
      by eapply list_elem_of_lookup_2. }
    exists cache. split; [|split].
    + rewrite Hrun, Hcached. unfold cached at 3 4.
      cbn [omap list_omap]. rewrite Hp. cbn [fmap list_fmap foldl].
      cbn [st1 client_manager trace]. by rewrite <- app_assoc.
    + rewrite Hdom. cbn. rewrite dom_delete_L. set_solver.
    + intros n Hn. apply not_elem_of_cons in Hn as [Hne Hn].
      rewrite (Hkeep n Hn). cbn. by rewrite lookup_delete_ne.
Qed.

(** The second [for] raises at its first id, before it has called
    [register], and falls through only when it has no id to go over. *)
Lemma register_phase ids (st : LoopState CM) :
  for_each (register_new globals driver) ids st =
    match ids with
    | [] => Continue st
    | _ :: _ => Failed (NameError "cast") st
    end.
Proof.
  destruct ids as [|n ids]; [reflexivity|].
  cbn [for_each]. unfold register_new. by rewrite cast_is_unbound.
Qed.

(** A pass unregisters the dead ids and then, if the poll shows an id that
    is not cached, raises [NameError]; it gets to its sleep only when the
    poll shows no new id. *)
Lemma pass_outcome fetched (st : LoopState CM) r :
  pass globals driver fetched st r →
  ∃ dead_order,
    iterates (dead_nodes fetched st) dead_order
    ∧ r = if decide (new_nodes fetched st = ∅)
          then Continue (emit (Sleep 3) (after_unregister fetched dead_order st))
          else Failed (NameError "cast") (after_unregister fetched dead_order st).
Proof.
  intros (dead_order & new_order & Hdead & Hnew & ->).
  exists dead_order. split; [exact Hdead|].
  unfold iterates in Hdead, Hnew.
  destruct (unregister_phase dead_order (emit GetNodes st))
    as (cache & Hrun & Hdom & Hkeep).
  { rewrite Hdead. apply NoDup_elements. }
  { intros n Hn. rewrite Hdead in Hn. apply elem_of_elements in Hn.
    unfold dead_nodes in Hn. cbn. set_solver. }
  assert (list_to_set dead_order = dead_nodes fetched st) as Hset.
  { apply set_eq. intros n.
    by rewrite elem_of_list_to_set, Hdead, elem_of_elements. }
  assert (cache = filter (fun kv => kv.1 ∈ all_node_ids fetched)
                         (registered_nodes st)) as ->.
  { apply map_eq. intros n.
    destruct (decide (n ∈ all_node_ids fetched)) as [Hall|Hall].
    - rewrite Hkeep.
      + cbn. destruct (registered_nodes st !! n) as [p|] eqn:Hp.
        * symmetry. by apply map_lookup_filter_Some.
        * symmetry. apply map_lookup_filter_None. left. exact Hp.
      + rewrite Hdead, elem_of_elements. unfold dead_nodes. set_solver.
    - transitivity (@None DriverClientProxy).
      + apply not_elem_of_dom. rewrite Hdom, Hset. cbn.
        unfold dead_nodes. set_solver.
      + symmetry. apply map_lookup_filter_None. right. intros p _. exact Hall. }
  unfold run_pass. rewrite Hrun, register_phase.
  change (cached (emit GetNodes st) dead_order) with (cached st dead_order).
  cbn [emit client_manager trace registered_nodes].
  unfold after_unregister. rewrite <- app_assoc. cbn [app].
  destruct new_order as [|n new_order].
  - symmetry in Hnew. apply Permutation_nil_r in Hnew.
    apply elements_empty_inv in Hnew. apply leibniz_equiv in Hnew.
    by rewrite decide_True by exact Hnew.
  - rewrite decide_False; [reflexivity|].
    intros Hempty. rewrite Hempty, elements_empty in Hnew.
    by apply Permutation_nil_r in Hnew.
Qed.

(** Some pass there is: the sets can be gone over in the order of their
    elements. *)
Lemma pass_exists fetched (st : LoopState CM) :
  pass globals driver fetched st
    (run_pass globals driver (elements (dead_nodes fetched st))
       (elements (new_nodes fetched st)) st).
Proof.
  exists (elements (dead_nodes fetched st)), (elements (new_nodes fetched st)).
  unfold iterates. by split; [|split].
Qed.


Lemma after_unregister_dom fetched dead_order (st : LoopState CM) :
  dom (registered_nodes (after_unregister fetched dead_order st))
  = dom (registered_nodes st) ∩ all_node_ids fetched.
Proof.
  cbn. apply set_eq. intros n.
  rewrite elem_of_intersection, !elem_of_dom. unfold is_Some.
  setoid_rewrite map_lookup_filter_Some. cbn. naive_solver.
Qed.

End Pass.

(** ** The claims on the loop *)

(** C5: the code diverges from the claim. A pass computes the dead and the
    new ids as the claim says, and unregisters and drops every dead id; but
    the [for] over the new ids raises [NameError] on [cast] at its first id,
    before [register] is called. So a pass never adds an id to the cache:
    the cache it leaves holds the ids that were cached and are polled, and
    it equals the polled set only when the poll shows no new id. *)
Theorem new_node_is_never_registered
    eager_annotations {CM} `{!ClientManager CM} driver fetched
    (st : LoopState CM) r :
  pass (module_globals eager_annotations) driver fetched st r →
  (∃ dead_order,
     iterates (dead_nodes fetched st) dead_order
     ∧ r = if decide (new_nodes fetched st = ∅)
           then Continue (emit (Sleep 3)
                            (after_unregister fetched dead_order st))
           else Failed (NameError "cast")
                       (after_unregister fetched dead_order st))
  ∧ dom (registered_nodes (result_state r))
    = dom (registered_nodes st) ∩ all_node_ids fetched
  ∧ (dom (registered_nodes (result_state r)) = all_node_ids fetched
     ↔ new_nodes fetched st = ∅).
Proof.
  intros Hpass.
  destruct (pass_outcome eager_annotations driver fetched st r Hpass)
    as (dead_order & Hdead & Hr).
  assert (dom (registered_nodes (result_state r))
          = dom (registered_nodes st) ∩ all_node_ids fetched) as Hdom.
  { rewrite Hr. destruct (decide _); cbn [result_state];
      [change (registered_nodes (emit ?e ?s)) with (registered_nodes s)|];
      apply after_unregister_dom. }
  split; [by exists dead_order|]. split; [exact Hdom|].
  rewrite Hdom. unfold new_nodes.
  generalize (dom (registered_nodes st)) (all_node_ids fetched).
  clear. intros X Y. split.
  - intros Heq. apply set_eq. intros n. rewrite elem_of_difference.
    split; [|set_solver]. intros [HY HX]. rewrite <- Heq in HY. set_solver.
  - intros Hempty. apply set_eq. intros n. rewrite elem_of_intersection.
    split; [tauto|]. intros HY. split; [|exact HY].
    destruct (decide (n ∈ X)) as [|HX]; [done|].
    assert (n ∈ Y ∖ X) as Hn by (by apply elem_of_difference).
    rewrite Hempty in Hn. set_solver.
Qed.


(** ** The claim on [start_driver] *)

(** C7: the code diverges from the claim. The lines in which the caller
    sets the flag and then joins never run: [start_driver] raises
    [NameError] where it builds the thread (on [certificates], or on
    [update_client_manager] when the import could not bind it), unless it
    has left before. Whatever its arguments, it never starts the thread of
    the loop, never runs [run_fl], never sets the flag, never joins, and
    never returns a history. *)
Theorem start_driver_never_starts_the_loop
    eager_annotations (History : Type) parse_address read_bytes
    (run_fl : option History) server_address root_certificates :
  Forall (fun e => touches_thread e = false)
    (start_driver History (module_globals eager_annotations) parse_address
       read_bytes run_fl server_address root_certificates).2
  ∧ (∀ hist,
       (start_driver History (module_globals eager_annotations) parse_address
          read_bytes run_fl server_address root_certificates).1
       ≠ Returns hist)
  ∧ (start_driver History (module_globals eager_annotations) parse_address
       read_bytes run_fl server_address root_certificates).1
    ≠ RaisesFromRunFl
  ∧ (is_Some (parse_address server_address) →
     (∀ path, root_certificates = Some (CertificatePath path) →
              is_Some (read_bytes path)) →
     (start_driver History (module_globals eager_annotations) parse_address
        read_bytes run_fl server_address root_certificates).1
     = Raises (NameError (if eager_annotations then "update_client_manager"
                          else "certificates"))).
Proof.
  unfold start_driver, connect_and_initialise, start_thread_and_train.
  rewrite thread_expression_unbound.
  destruct (parse_address server_address) as [[[host port] is_v6]|].
  - destruct root_certificates as [[b|path]|];
      [| destruct (read_bytes path) as [b|] eqn:Hread |]; cbn [fst snd app];
      (split; [repeat constructor|]);
      (split; [discriminate|]); (split; [discriminate|]);
      intros _ Hreadable; try reflexivity.
    destruct (Hreadable path eq_refl) as [b Hb]. congruence.
  - cbn [fst snd]. split; [repeat constructor|].
    split; [discriminate|]. split; [discriminate|].
    intros [x Hx]. discriminate Hx.
Qed.

(** ** The claims on concrete runs *)

Import DriverApp.Reference.

(** C5 on the first poll of the claim's sequence: the cache is empty and
    the registry lists nodes 1 and 2. The pass raises, whichever of the two
    ids comes first, and the cache stays empty. *)
Lemma first_poll_scenario :
  run_pass (module_globals true) driver [] [1; 2]
      (mkLoop ∅ (∅ : SimpleClientManager) [])
    = Failed (NameError "cast") (mkLoop ∅ ∅ [GetNodes])
  ∧ run_pass (module_globals true) driver [] [2; 1]
      (mkLoop ∅ (∅ : SimpleClientManager) [])
    = Failed (NameError "cast") (mkLoop ∅ ∅ [GetNodes])
  ∧ dom (registered_nodes
           (result_state
              (run_pass (module_globals true) driver
                 (elements (dead_nodes (nodes_of [1; 2])
                              (mkLoop ∅ (∅ : SimpleClientManager) [])))
                 (elements (new_nodes (nodes_of [1; 2])
                              (mkLoop ∅ (∅ : SimpleClientManager) [])))
                 (mkLoop ∅ ∅ []))))
    = dom (∅ : gmap Z DriverClientProxy) ∩ all_node_ids (nodes_of [1; 2]).
Proof.
  split; [vm_compute; reflexivity|]. split; [vm_compute; reflexivity|].
  exact (proj1 (proj2 (new_node_is_never_registered true driver
                         (nodes_of [1; 2])
                         (mkLoop ∅ (∅ : SimpleClientManager) []) _
                         (pass_exists true driver (nodes_of [1; 2])
                            (mkLoop ∅ (∅ : SimpleClientManager) []))))).
Defined.


(** C7 on a call: [start_driver()] with its default address, and training
    that would return. *)
Lemma start_driver_scenario :
  start_driver unit (module_globals false) parse_default no_file (Some tt)
    "[::]:9091" None
  = (Raises (NameError "certificates"),
     [Telemetry "START_DRIVER_ENTER"; Connect "[::]:9091" None;
      InitDefaults; LogStarting])
  ∧ (start_driver unit (module_globals true) parse_default no_file (Some tt)
       "[::]:9091" None).1
    = Raises (NameError "update_client_manager").
Proof.
  split; [vm_compute; reflexivity|].
  refine (proj2 (proj2 (proj2
            (start_driver_never_starts_the_loop true unit parse_default
               no_file (Some tt) "[::]:9091" None))) _ _).
  - by eexists.
  - intros path Hpath. discriminate Hpath.
Defined.

End LoopProperties.

(* ===================================================================== *)
(** * Further properties of the authenticating gate *)
(* ===================================================================== *)

Module GateFurther.
Import Interceptor GateProperties.

(** [_get_value_from_tuples] returns the bytes of the first value filed
    under the key: tuples under other keys before it, and every tuple after
    it (a second value under the same key included), change nothing. With
    no tuple under the key the result is empty. *)
Theorem first_header_value_wins key_string before value after :
  header_absent key_string before →
  _get_value_from_tuples key_string (before ++ (key_string, value) :: after)
    = value_bytes value
  ∧ _get_value_from_tuples key_string before = [].
Proof.
  intros Habs. split; [|by apply absent_header_value].
  unfold _get_value_from_tuples.
  assert (find (λ kv : string * MetaValue, bool_decide (kv.1 = key_string))
               (before ++ (key_string, value) :: after)
          = Some (key_string, value)) as ->; [|by destruct value].
  induction Habs as [|kv l Hkv _ IH]; cbn [app find].
  - by rewrite bool_decide_eq_true_2.
  - by rewrite bool_decide_eq_false_2.
Qed.

Section Gate.
Context {S : Type} `{!State S} `{!Encoding} `{!Crypto}.
Variable server_private_key : PrivateKey.
Variable server_public_key : PublicKey.
Variable unary_unary : Request → S → HandlerResult * S.

Local Abbreviation client_key metadata :=
  (urlsafe_b64decode (_get_value_from_tuples _PUBLIC_KEY_HEADER metadata)).

(** A public-key header that is not valid base64 makes the call raise
    [binascii.Error] at once: the store is not even read, nothing is sent,
    and the call is not aborted with UNAUTHENTICATED. *)
Theorem malformed_public_key_header_raises request metadata (w : World S) :
  client_key metadata = None →
  _generic_method_handler server_private_key server_public_key unary_unary
      request metadata w = (Raised BinasciiError, w).
Proof. intros Hk. gate_unfold. by rewrite Hk. Qed.

(** When the HMAC stage of a session-authenticated call from a trusted key
    raises (the auth-token header is not valid base64, the key does not
    parse, no shared key can be derived), the call raises that exception
    having only read the trusted set: the binding is not looked up, the
    wrapped handler is not called, and there is no UNAUTHENTICATED abort. *)
Theorem failed_hmac_stage_raises request metadata (w : World S) k e :
  session_kind request = true →
  client_key metadata = Some k →
  k ∈ get_client_public_keys (store w) →
  session_verify server_private_key request metadata k = inl e →
  _generic_method_handler server_private_key server_public_key unary_unary
      request metadata w =
    (Raised e, mkWorld (store w) (trace w ++ [CallGetClientPublicKeys])).
Proof.
  intros Hkind Hk Hin He.
  destruct request; try discriminate Hkind;
    gate_unfold; rewrite Hk; cbn [store trace];
    rewrite bool_decide_eq_true_2 by exact Hin; cbn [negb];
    rewrite He; reflexivity.
Qed.

(** A [DeleteNodeRequest] or [PullTaskInsRequest] from a trusted key, once
    its HMAC check has run: it is aborted exactly when the token fails and
    the key is not bound to the node the request names. So a request for
    the node the key is bound to is handed to the wrapped handler though
    its token does not verify, and so is a request with a valid token for a
    node the key is not bound to. *)
Theorem delete_and_pull_decision request node metadata (w : World S) k verify :
  request = DeleteNodeRequest node
  ∨ (∃ task_ids, request = PullTaskInsRequest node task_ids) →
  client_key metadata = Some k →
  k ∈ get_client_public_keys (store w) →
  session_verify server_private_key request metadata k = inr verify →
  ((_generic_method_handler server_private_key server_public_key unary_unary
      request metadata w).1 = Aborted UNAUTHENTICATED "Access denied!"
   ↔ verify = false ∧ get_node_id k (store w) ≠ Some (node_id node))
  ∧ (verify = true ∨ get_node_id k (store w) = Some (node_id node) →
     _generic_method_handler server_private_key server_public_key unary_unary
         request metadata w =
       message_handler_unary_unary unary_unary request
         (mkWorld (store w)
                  (trace w ++ [CallGetClientPublicKeys; CallGetNodeId k]))).
Proof.
  intros Hreq Hk Hin Hv.
  assert (request_node_id request = inr (node_id node)) as Hrid
    by (destruct Hreq as [->|[ids ->]]; reflexivity).
  pose proof (session_call_decision server_private_key server_public_key
                unary_unary request metadata w k verify (node_id node)
                Hk Hin Hv Hrid) as Hdec.
  assert (node_id_eq (get_node_id k (store w)) (node_id node) = true
          ↔ get_node_id k (store w) = Some (node_id node)) as Heq.
  { unfold node_id_eq. destruct (get_node_id k (store w)) as [m|]; [|done].
    rewrite bool_decide_eq_true. split; congruence. }
  rewrite Hdec.
  destruct verify, (node_id_eq (get_node_id k (store w)) (node_id node)) eqn:Hid;
    cbn [negb andb].
  - split; [|done]. split; [|by intros [? _]].
    intros Hd. by apply forwarded_not_aborted in Hd.
  - split; [|done]. split; [|by intros [? _]].
    intros Hd. by apply forwarded_not_aborted in Hd.
  - split; [|done]. split.
    + intros Hd. by apply forwarded_not_aborted in Hd.
    + intros [_ Hne]. destruct Hne. by apply Heq.
  - split.
    + split; [|done]. intros _. split; [done|].
      intros Hb%Heq. congruence.
    + intros [?|Hb%Heq]; congruence.
Qed.

(** A call that the gate aborts has changed nothing: the store is the one
    the call found, and all the call did before the abort is read the
    trusted set and, for a session-authenticated request, look up the
    binding of the key. The wrapped handler was not called and no metadata
    was sent. *)
Theorem rejection_changes_nothing request metadata (w : World S) code details :
  (_generic_method_handler server_private_key server_public_key unary_unary
     request metadata w).1 = Aborted code details →
  store (_generic_method_handler server_private_key server_public_key
           unary_unary request metadata w).2 = store w
  ∧ (new_events w
       (_generic_method_handler server_private_key server_public_key
          unary_unary request metadata w).2
     = [CallGetClientPublicKeys; Abort UNAUTHENTICATED "Access denied!"]
     ∨ ∃ k,
         client_key metadata = Some k
         ∧ session_kind request = true
         ∧ new_events w
             (_generic_method_handler server_private_key server_public_key
                unary_unary request metadata w).2
           = [CallGetClientPublicKeys; CallGetNodeId k;
              Abort UNAUTHENTICATED "Access denied!"]).
Proof.
  unfold new_events. gate_unfold. intros Hab.
  repeat (case_match; simplify_eq/=); try done;
    (split; [reflexivity|]);
    rewrite <- ?app_assoc, drop_app_length; cbn [app];
    first [by left | right; eexists; done].
Qed.

(** Brings [new_events] of a call to the list of the events it added. *)
Ltac new_events_simpl :=
  rewrite <- ?app_assoc; rewrite ?drop_app_length, ?drop_all; cbn [app].

(** The gate itself writes to the store at first contact only: on a request
    that is not a [CreateNodeRequest] it calls neither [restore_node] nor
    [store_node_id_client_public_key_pair], and the store the call leaves is
    the one it found or the one the wrapped handler made of it. *)
Theorem gate_writes_only_at_first_contact request metadata (w : World S) :
  (∀ ping_interval, request ≠ CreateNodeRequest ping_interval) →
  Forall (fun e => is_store_write e = false)
         (new_events w
            (_generic_method_handler server_private_key server_public_key
               unary_unary request metadata w).2)
  ∧ (store (_generic_method_handler server_private_key server_public_key
              unary_unary request metadata w).2 = store w
     ∨ store (_generic_method_handler server_private_key server_public_key
                unary_unary request metadata w).2
       = (unary_unary request (store w)).2).
Proof.
  intros Hne. unfold new_events. gate_unfold.
  destruct request as [ping|node|node ids|l|what];
    [by destruct (Hne ping)|..];
    repeat (case_match; simplify_eq/=); new_events_simpl;
    (split; [by repeat constructor|]);
    first [by left | by right].
Qed.

(** The wrapped handler is called at most once in a call, and with the
    request as the gate received it. *)
Theorem handler_called_at_most_once request metadata (w : World S) :
  handler_calls
    (new_events w
       (_generic_method_handler server_private_key server_public_key
          unary_unary request metadata w).2) = []
  ∨ handler_calls
      (new_events w
         (_generic_method_handler server_private_key server_public_key
            unary_unary request metadata w).2) = [request].
Proof.
  unfold new_events. gate_unfold.
  repeat (case_match; simplify_eq/=); new_events_simpl;
    first [by left | by right].
Qed.

(** The gate does not alter a response: a call that returns, returns what
    the wrapped handler answered to this request on the store the call
    found, save at a reconnect, where the response is made from the node id
    the key is bound to. *)
Theorem returned_response_is_the_handlers request metadata (w : World S) response :
  (_generic_method_handler server_private_key server_public_key unary_unary
     request metadata w).1 = Returned response →
  (unary_unary request (store w)).1 = HandlerReturned response
  ∨ ∃ ping_interval k N,
      request = CreateNodeRequest ping_interval
      ∧ client_key metadata = Some k
      ∧ get_node_id k (store w) = Some N
      ∧ response = CreateNodeResponse {| node_id := N; anonymous := false |}.
Proof.
  gate_unfold. intros Hret.
  repeat (case_match; simplify_eq/=); try done;
    first [ left; by match goal with H : unary_unary _ _ = _ |- _ =>
                       rewrite H end
          | right; by eexists _, _, _ ].
Qed.

(** Of the metadata of a call the gate uses two values only, the first
    under the public-key header and the first under the auth-token header:
    two calls that agree on them, and on the request and the store, do
    the same. A [CreateNodeRequest] does not even use the token. *)
Theorem only_the_two_headers_matter metadata1 metadata2 (w : World S) :
  _get_value_from_tuples _PUBLIC_KEY_HEADER metadata1
    = _get_value_from_tuples _PUBLIC_KEY_HEADER metadata2 →
  (∀ ping_interval,
     _generic_method_handler server_private_key server_public_key unary_unary
         (CreateNodeRequest ping_interval) metadata1 w
     = _generic_method_handler server_private_key server_public_key unary_unary
         (CreateNodeRequest ping_interval) metadata2 w)
  ∧ (_get_value_from_tuples _AUTH_TOKEN_HEADER metadata1
       = _get_value_from_tuples _AUTH_TOKEN_HEADER metadata2 →
     ∀ request,
       _generic_method_handler server_private_key server_public_key unary_unary
           request metadata1 w
       = _generic_method_handler server_private_key server_public_key
           unary_unary request metadata2 w).
Proof.
  intros Hpk. split.
  - intros ping. unfold _generic_method_handler. by rewrite Hpk.
  - intros Htok request. unfold _generic_method_handler, session_verify.
    by rewrite Hpk, Htok.
Qed.

(** When the wrapped handler does not answer a first contact with a
    [CreateNodeResponse] (it raises, or returns something else), the call
    raises and the gate stores no binding for the key: the store is as the
    handler left it, and the last thing the call did is call the handler. *)
Theorem failed_first_contact_binds_nothing
    ping_interval metadata (w : World S) k result s' :
  client_key metadata = Some k →
  k ∈ get_client_public_keys (store w) →
  get_node_id k (store w) = None →
  unary_unary (CreateNodeRequest ping_interval) (store w) = (result, s') →
  (∀ node, result ≠ HandlerReturned (CreateNodeResponse node)) →
  ∃ e,
    _generic_method_handler server_private_key server_public_key unary_unary
        (CreateNodeRequest ping_interval) metadata w =
      (Raised e,
       mkWorld s'
         (trace w ++ [CallGetClientPublicKeys;
                      SendInitialMetadata
                        [(_PUBLIC_KEY_HEADER,
                          MBytes (urlsafe_b64encode
                                    (public_key_to_bytes server_public_key)))];
                      CallGetNodeId k;
                      CallUnaryUnary (CreateNodeRequest ping_interval)]))
    ∧ e = match result with
          | HandlerRaised what => HandlerException what
          | HandlerReturned _ => AttributeError
          end.
Proof.
  intros Hk Hin Hbound Hh Hnot. gate_unfold. rewrite Hk. cbn [store trace].
  rewrite bool_decide_eq_true_2 by exact Hin. cbn [negb store trace].
  rewrite Hbound. cbn [store trace]. rewrite Hh.
  destruct result as [[node| | |]|what]; [by destruct (Hnot node)|..];
    cbn [response_node store trace]; eexists;
    (split; [rewrite <- !app_assoc; reflexivity|reflexivity]).
Qed.

(** First contact, then reconnect. Let the store return the binding it was
    given and keep its trusted set when a binding is stored, and let the
    wrapped handler keep the key trusted. After a first contact that the
    handler answered with node id [n], a second [CreateNodeRequest] under
    the same key is answered with node id [n], marked non-anonymous
    whatever the first response said, and without the handler being
    called. *)
Theorem reconnect_after_first_contact
    ping1 ping2 metadata (w : World S) k node s' :
  (∀ key n s,
     get_node_id key (store_node_id_client_public_key_pair key n s) = Some n) →
  (∀ key n s,
     get_client_public_keys (store_node_id_client_public_key_pair key n s)
     = get_client_public_keys s) →
  client_key metadata = Some k →
  k ∈ get_client_public_keys (store w) →
  get_node_id k (store w) = None →
  unary_unary (CreateNodeRequest ping1) (store w)
    = (HandlerReturned (CreateNodeResponse node), s') →
  k ∈ get_client_public_keys s' →
  (_generic_method_handler server_private_key server_public_key unary_unary
     (CreateNodeRequest ping2) metadata
     (_generic_method_handler server_private_key server_public_key unary_unary
        (CreateNodeRequest ping1) metadata w).2).1
  = Returned (CreateNodeResponse {| node_id := node_id node; anonymous := false |})
  ∧ handler_calls
      (new_events
         (_generic_method_handler server_private_key server_public_key
            unary_unary (CreateNodeRequest ping1) metadata w).2
         (_generic_method_handler server_private_key server_public_key
            unary_unary (CreateNodeRequest ping2) metadata
            (_generic_method_handler server_private_key server_public_key
               unary_unary (CreateNodeRequest ping1) metadata w).2).2)
    = [].
Proof.
  intros Hget Hkeys Hk Hin Hbound Hh Hin'.
  assert (_generic_method_handler server_private_key server_public_key
            unary_unary (CreateNodeRequest ping1) metadata w
          = (Returned (CreateNodeResponse node),
             mkWorld
               (store_node_id_client_public_key_pair k (node_id node) s')
               (trace w ++ [CallGetClientPublicKeys;
                            SendInitialMetadata
                              [(_PUBLIC_KEY_HEADER,
                                MBytes (urlsafe_b64encode
                                          (public_key_to_bytes server_public_key)))];
                            CallGetNodeId k;
                            CallUnaryUnary (CreateNodeRequest ping1);
                            CallStoreNodeIdClientPublicKeyPair k (node_id node)])))
    as ->.
  { gate_unfold. rewrite Hk. cbn [store trace].
    rewrite bool_decide_eq_true_2 by exact Hin. cbn [negb store trace].
    rewrite Hbound. cbn [store trace]. rewrite Hh.
    cbn [response_node store trace]. rewrite <- !app_assoc. reflexivity. }
  cbn [snd].
  match goal with |- context [mkWorld ?st ?tr] =>
    remember (mkWorld st tr) as w1 eqn:Hw1 end.
  assert (store w1 = store_node_id_client_public_key_pair k (node_id node) s')
    as Hstore by (by subst w1).
  clear Hw1. unfold new_events. gate_unfold. rewrite Hk. cbn [store trace].
  rewrite Hstore, Hkeys, bool_decide_eq_true_2 by exact Hin'.
  cbn [negb store trace]. rewrite Hget. cbn [store trace fst snd].
  split; [reflexivity|].
  rewrite <- !app_assoc, drop_app_length. reflexivity.
Qed.

End Gate.

(** ** The further properties on concrete calls *)

Import Interceptor.Reference Interceptor.Scenarios.

Lemma first_header_value_scenario :
  _get_value_from_tuples _PUBLIC_KEY_HEADER crowded_metadata = encode "AQID"
  ∧ _get_value_from_tuples _PUBLIC_KEY_HEADER [("user-agent", MStr "grpc-python")]
    = [].
Proof.
  refine (first_header_value_wins _PUBLIC_KEY_HEADER
            [("user-agent", MStr "grpc-python")] (MStr "AQID")
            [(_PUBLIC_KEY_HEADER, MStr "BAUG")] _).
  constructor; [discriminate|constructor].
Defined.

(** A public-key header of one character is not base64. *)
Lemma malformed_public_key_scenario :
  _generic_method_handler server_sk server_pk servicer
      (PullTaskInsRequest node7 []) (metadata_of (MStr "A") (MStr ""))
      (mkWorld bound_store []) =
    (Raised BinasciiError, mkWorld bound_store []).
Proof.
  exact (malformed_public_key_header_raises server_sk server_pk servicer
           (PullTaskInsRequest node7 []) (metadata_of (MStr "A") (MStr ""))
           (mkWorld bound_store []) eq_refl).
Defined.

(** A token of one character is not base64 either. *)
Lemma malformed_token_scenario :
  _generic_method_handler server_sk server_pk servicer
      (DeleteNodeRequest node7) (metadata_of (MStr "AQID") (MStr "A"))
      (mkWorld bound_store []) =
    (Raised BinasciiError, mkWorld bound_store [CallGetClientPublicKeys]).
Proof.
  exact (failed_hmac_stage_raises server_sk server_pk servicer
           (DeleteNodeRequest node7) (metadata_of (MStr "AQID") (MStr "A"))
           (mkWorld bound_store []) KA BinasciiError
           eq_refl eq_refl (KA_trusted bound_store eq_refl) eq_refl).
Defined.

(** [KA] is bound to node 7 and pulls for node 7 with a token that does not
    verify: the call is forwarded. *)
Lemma bound_node_without_token_scenario :
  ((_generic_method_handler server_sk server_pk servicer
      (PullTaskInsRequest node7 []) (metadata_of (MStr "AQID") (MStr "AAAA"))
      (mkWorld bound_store [])).1 = Aborted UNAUTHENTICATED "Access denied!"
   ↔ false = false ∧ get_node_id KA bound_store ≠ Some 7)
  ∧ (false = true ∨ get_node_id KA bound_store = Some 7 →
     _generic_method_handler server_sk server_pk servicer
         (PullTaskInsRequest node7 []) (metadata_of (MStr "AQID") (MStr "AAAA"))
         (mkWorld bound_store []) =
       message_handler_unary_unary servicer (PullTaskInsRequest node7 [])
         (mkWorld bound_store ([] ++ [CallGetClientPublicKeys; CallGetNodeId KA]))).
Proof.
  exact (delete_and_pull_decision server_sk server_pk servicer
           (PullTaskInsRequest node7 []) node7
           (metadata_of (MStr "AQID") (MStr "AAAA"))
           (mkWorld bound_store []) KA false
           (or_intror (ex_intro _ [] eq_refl))
           eq_refl (KA_trusted bound_store eq_refl) eq_refl).
Defined.

(** A pull for node 9 under [KA], bound to node 7, with a bad token. *)
Lemma rejection_scenario :
  store (_generic_method_handler server_sk server_pk servicer
           (PullTaskInsRequest node9 []) (metadata_of (MStr "AQID") (MStr "AAAA"))
           (mkWorld bound_store [])).2 = bound_store
  ∧ (new_events (mkWorld bound_store [])
       (_generic_method_handler server_sk server_pk servicer
          (PullTaskInsRequest node9 []) (metadata_of (MStr "AQID") (MStr "AAAA"))
          (mkWorld bound_store [])).2
     = [CallGetClientPublicKeys; Abort UNAUTHENTICATED "Access denied!"]
     ∨ ∃ k,
         urlsafe_b64decode
           (_get_value_from_tuples _PUBLIC_KEY_HEADER
              (metadata_of (MStr "AQID") (MStr "AAAA"))) = Some k
         ∧ session_kind (PullTaskInsRequest node9 []) = true
         ∧ new_events (mkWorld bound_store [])
             (_generic_method_handler server_sk server_pk servicer
                (PullTaskInsRequest node9 [])
                (metadata_of (MStr "AQID") (MStr "AAAA"))
                (mkWorld bound_store [])).2
           = [CallGetClientPublicKeys; CallGetNodeId k;
              Abort UNAUTHENTICATED "Access denied!"]).
Proof.
  exact (rejection_changes_nothing server_sk server_pk servicer
           (PullTaskInsRequest node9 []) (metadata_of (MStr "AQID") (MStr "AAAA"))
           (mkWorld bound_store []) UNAUTHENTICATED "Access denied!" eq_refl).
Defined.

(** A deletion under [KA] with the right token writes nothing itself. *)
Lemma session_call_writes_scenario :
  Forall (fun e => is_store_write e = false)
         (new_events (mkWorld bound_store [])
            (_generic_method_handler server_sk server_pk servicer
               (DeleteNodeRequest node7)
               (metadata_of (MStr "AQID") (MBytes (token (DeleteNodeRequest node7))))
               (mkWorld bound_store [])).2)
  ∧ (store (_generic_method_handler server_sk server_pk servicer
              (DeleteNodeRequest node7)
              (metadata_of (MStr "AQID") (MBytes (token (DeleteNodeRequest node7))))
              (mkWorld bound_store [])).2 = bound_store
     ∨ store (_generic_method_handler server_sk server_pk servicer
                (DeleteNodeRequest node7)
                (metadata_of (MStr "AQID")
                             (MBytes (token (DeleteNodeRequest node7))))
                (mkWorld bound_store [])).2
       = (servicer (DeleteNodeRequest node7) bound_store).2).
Proof.
  refine (gate_writes_only_at_first_contact server_sk server_pk servicer
            (DeleteNodeRequest node7)
            (metadata_of (MStr "AQID") (MBytes (token (DeleteNodeRequest node7))))
            (mkWorld bound_store []) _).
  intros ping_interval. discriminate.
Defined.

(** A first contact returns the servicer's response, a reconnect the
    synthesized one. *)
Lemma returned_response_scenario :
  ((servicer (CreateNodeRequest 30%float) trusted_store).1
     = HandlerReturned (CreateNodeResponse {| node_id := 1; anonymous := false |})
   ∨ ∃ ping_interval k N,
       CreateNodeRequest 30%float = CreateNodeRequest ping_interval
       ∧ urlsafe_b64decode
           (_get_value_from_tuples _PUBLIC_KEY_HEADER
              (metadata_of (MStr "AQID") (MStr ""))) = Some k
       ∧ get_node_id k trusted_store = Some N
       ∧ CreateNodeResponse {| node_id := 1; anonymous := false |}
         = CreateNodeResponse {| node_id := N; anonymous := false |})
  ∧ ((servicer (CreateNodeRequest 30%float) bound_store).1
       = HandlerReturned (CreateNodeResponse node7)
     ∨ ∃ ping_interval k N,
         CreateNodeRequest 30%float = CreateNodeRequest ping_interval
         ∧ urlsafe_b64decode
             (_get_value_from_tuples _PUBLIC_KEY_HEADER
                (metadata_of (MStr "AQID") (MStr ""))) = Some k
         ∧ get_node_id k bound_store = Some N
         ∧ CreateNodeResponse node7
           = CreateNodeResponse {| node_id := N; anonymous := false |}).
Proof.
  split.
  - exact (returned_response_is_the_handlers server_sk server_pk servicer
             (CreateNodeRequest 30%float) (metadata_of (MStr "AQID") (MStr ""))
             (mkWorld trusted_store [])
             (CreateNodeResponse {| node_id := 1; anonymous := false |}) eq_refl).
  - exact (returned_response_is_the_handlers server_sk server_pk servicer
             (CreateNodeRequest 30%float) (metadata_of (MStr "AQID") (MStr ""))
             (mkWorld bound_store []) (CreateNodeResponse node7) eq_refl).
Defined.

(** The crowded metadata does what the plain public-key header does, at
    first contact whatever the token, and on a pull with the same token. *)
Lemma crowded_metadata_scenario :
  _generic_method_handler server_sk server_pk servicer
      (CreateNodeRequest 30%float) crowded_metadata (mkWorld trusted_store [])
  = _generic_method_handler server_sk server_pk servicer
      (CreateNodeRequest 30%float) (metadata_of (MStr "AQID") (MStr "AAAA"))
      (mkWorld trusted_store [])
  ∧ _generic_method_handler server_sk server_pk servicer
      (PullTaskInsRequest node7 []) crowded_metadata (mkWorld bound_store [])
  = _generic_method_handler server_sk server_pk servicer
      (PullTaskInsRequest node7 []) (metadata_of (MStr "AQID") (MStr ""))
      (mkWorld bound_store []).
Proof.
  split.
  - exact (proj1 (only_the_two_headers_matter server_sk server_pk servicer
                    crowded_metadata (metadata_of (MStr "AQID") (MStr "AAAA"))
                    (mkWorld trusted_store []) eq_refl) 30%float).
  - exact (proj2 (only_the_two_headers_matter server_sk server_pk servicer
                    crowded_metadata (metadata_of (MStr "AQID") (MStr ""))
                    (mkWorld bound_store []) eq_refl) eq_refl
                 (PullTaskInsRequest node7 [])).
Defined.

(** The servicer is down when [KA] makes its first contact. *)
Lemma failed_first_contact_scenario :
  ∃ e,
    _generic_method_handler server_sk server_pk unavailable
        (CreateNodeRequest 30%float) (metadata_of (MStr "AQID") (MStr ""))
        (mkWorld trusted_store []) =
      (Raised e,
       mkWorld trusted_store
         ([] ++ [CallGetClientPublicKeys;
                 SendInitialMetadata
                   [(_PUBLIC_KEY_HEADER,
                     MBytes (urlsafe_b64encode (public_key_to_bytes server_pk)))];
                 CallGetNodeId KA;
                 CallUnaryUnary (CreateNodeRequest 30%float)]))
    ∧ e = HandlerException "UNAVAILABLE".
Proof.
  refine (failed_first_contact_binds_nothing server_sk server_pk unavailable
            30%float (metadata_of (MStr "AQID") (MStr ""))
            (mkWorld trusted_store []) KA (HandlerRaised "UNAVAILABLE")
            trusted_store eq_refl (KA_trusted trusted_store eq_refl)
            eq_refl eq_refl _).
  intros node. discriminate.
Defined.

Lemma in_memory_get_after_store key n (s : InMemoryState) :
  get_node_id key (store_node_id_client_public_key_pair key n s) = Some n.
Proof. cbn. apply lookup_insert_eq. Defined.

Lemma in_memory_keys_after_store key n (s : InMemoryState) :
  get_client_public_keys (store_node_id_client_public_key_pair key n s)
  = get_client_public_keys s.
Proof. reflexivity. Defined.

(** [KA] registers with a lease of 30 and comes back with one of 60. *)
Lemma reconnect_after_first_contact_run :
  (_generic_method_handler server_sk server_pk servicer
     (CreateNodeRequest 60%float) (metadata_of (MStr "AQID") (MStr ""))
     (_generic_method_handler server_sk server_pk servicer
        (CreateNodeRequest 30%float) (metadata_of (MStr "AQID") (MStr ""))
        (mkWorld trusted_store [])).2).1
  = Returned (CreateNodeResponse {| node_id := 1; anonymous := false |})
  ∧ handler_calls
      (new_events
         (_generic_method_handler server_sk server_pk servicer
            (CreateNodeRequest 30%float) (metadata_of (MStr "AQID") (MStr ""))
            (mkWorld trusted_store [])).2
         (_generic_method_handler server_sk server_pk servicer
            (CreateNodeRequest 60%float) (metadata_of (MStr "AQID") (MStr ""))
            (_generic_method_handler server_sk server_pk servicer
               (CreateNodeRequest 30%float) (metadata_of (MStr "AQID") (MStr ""))
               (mkWorld trusted_store [])).2).2)
    = [].
Proof.
  exact (reconnect_after_first_contact server_sk server_pk servicer
           30%float 60%float (metadata_of (MStr "AQID") (MStr ""))
           (mkWorld trusted_store []) KA
           {| node_id := 1; anonymous := false |}
           (in_memory_restore_node 1 30%float trusted_store)
           in_memory_get_after_store in_memory_keys_after_store
           eq_refl (KA_trusted trusted_store eq_refl) eq_refl eq_refl
           (KA_trusted (in_memory_restore_node 1 30%float trusted_store) eq_refl)).
Defined.

End GateFurther.
